(** * jest-image-snapshot: the matcher of [src/index.js]

    A shallow embedding of [toMatchImageSnapshot], [checkResult],
    [createSnapshotIdentifier] and [updateSnapshotState], with the parts of
    Node, lodash and chalk they read. *)

From Stdlib Require Import ZArith Ascii String Bool.
From Stdlib Require Import Floats.
From stdpp Require Import base gmap strings pretty.

Open Scope string_scope.

(* ================================================================= *)
(** ** JavaScript numbers and [Number::toString] *)

(** JavaScript numbers are IEEE binary64 doubles, [PrimFloat.float] here.
    [Number::toString] (ECMA-262, 6.1.6.1.20) prints the shortest decimal
    [s * 10^(n-k)] (k digits) that rounds back to the double. *)
Module JsNumber.
Local Open Scope Z_scope.

(** Round the positive rational [p/q] to the nearest integer, ties to even. *)
Definition round_half_even (p q : Z) : Z :=
  let d := p / q in
  let r := p mod q in
  match Z.compare (2 * r) q with
  | Lt => d
  | Gt => d + 1
  | Eq => if Z.even d then d else d + 1
  end.

(** Exact rational [p/q] scaled by [2^e]: returns numerator and denominator. *)
Definition scale2 (p q e : Z) : Z * Z :=
  if 0 <=? e then (p * 2 ^ e, q) else (p, q * 2 ^ (- e)).

Definition scale10 (p q e : Z) : Z * Z :=
  if 0 <=? e then (p * 10 ^ e, q) else (p, q * 10 ^ (- e)).

(** The binary64 value nearest to the positive rational [p/q], as the
    canonical (mantissa, exponent) pair of [SpecFloat] (mantissa of 53 bits,
    or exponent -1074 for subnormals); overflow does not arise for the
    decimals tried below. *)
Definition nearest_binary64 (p q : Z) : Z * Z :=
  let l := Z.log2 p - Z.log2 q in
  let '(a, b) := scale2 q 1 l in
  let t := if a * 1 <=? p * b then l else l - 1 in
  let e2 := Z.max (t - 52) (-1074) in
  let '(p', q') := scale2 p q (- e2) in
  let m := round_half_even p' q' in
  if m =? 2 ^ 53 then (2 ^ 52, e2 + 1) else (m, e2).

(** Number of decimal digits of a positive integer. *)
Definition dec_digits (z : Z) : Z := Z.of_nat (String.length (pretty z)).

(** The decimal exponent [n] with [10^(n-1) <= p/q < 10^n]. *)
Definition dec_exponent (p q : Z) : Z :=
  let d := dec_digits p - dec_digits q in
  let '(a, b) := scale10 1 1 d in
  if a * q <=? p * b then d + 1 else d.

(** The nearest [k]-digit decimal to [m * 2^e], as [(s, n)]. *)
Definition nearest_decimal (m e : Z) (k : Z) : Z * Z :=
  let '(p, q) := scale2 m 1 e in
  let n := dec_exponent p q in
  let '(p', q') := scale10 p q (k - n) in
  let s := round_half_even p' q' in
  if s =? 10 ^ k then (10 ^ (k - 1), n + 1) else (s, n).

Definition roundtrips (m e k s n : Z) : bool :=
  let '(p, q) := scale10 s 1 (n - k) in
  let '(m', e') := nearest_binary64 p q in
  (m' =? m) && (e' =? e).

(** The shortest [(k, s, n)] for a positive finite double [m * 2^e]. *)
Fixpoint shortest_go (fuel : nat) (m e k : Z) : Z * Z * Z :=
  match fuel with
  | O => let '(s, n) := nearest_decimal m e k in (k, s, n)
  | S fuel' =>
      let '(s, n) := nearest_decimal m e k in
      if roundtrips m e k s n then (k, s, n) else shortest_go fuel' m e (k + 1)
  end.

Definition shortest (m e : Z) : Z * Z * Z := shortest_go 16 m e 1.

Fixpoint zeros (n : nat) : string :=
  match n with O => "" | S n' => "0" ++ zeros n' end.

(** Steps 6 to 10 of [Number::toString] for the digits [s] (k of them) and
    the exponent [n]. *)
Definition format (k s n : Z) : string :=
  let ds := pretty s in
  let exp_part :=
    "e" ++ (if 0 <=? n - 1 then "+" else "-") ++ pretty (Z.abs (n - 1)) in
  if (k <=? n) && (n <=? 21) then ds ++ zeros (Z.to_nat (n - k))
  else if (0 <? n) && (n <=? 21) then
    substring 0 (Z.to_nat n) ds ++ "." ++ substring (Z.to_nat n) (Z.to_nat (k - n)) ds
  else if (-6 <? n) && (n <=? 0) then "0." ++ zeros (Z.to_nat (- n)) ++ ds
  else if k =? 1 then ds ++ exp_part
  else substring 0 1 ds ++ "." ++ substring 1 (Z.to_nat (k - 1)) ds ++ exp_part.

Definition to_string (x : float) : string :=
  match Prim2SF x with
  | S754_nan => "NaN"
  | S754_zero _ => "0"
  | S754_infinity s => if s then "-Infinity" else "Infinity"
  | S754_finite s m e =>
      let '(k, sd, n) := shortest (Z.pos m) e in
      (if s then "-" else "") ++ format k sd n
  end.

End JsNumber.

(* ================================================================= *)
(** ** JavaScript strings *)

(** Strings are byte strings here; the matcher only builds, splits and
    searches them. *)
Module JsString.

Definition chr (n : nat) : string := String (ascii_of_nat n) EmptyString.
Definition LF := chr 10.
Definition CR := chr 13.
Definition TAB := chr 9.
Definition ESC := chr 27.
Definition BEL := chr 7.
Definition DQUOTE := chr 34.

(** [s.split(sep)] for a non-empty separator [sep]; [fuel] bounds the
    number of characters still to scan. *)
Fixpoint split_go (fuel : nat) (sep s : string) : list string :=
  match fuel with
  | O => [s]
  | S fuel' =>
      match s with
      | EmptyString => [EmptyString]
      | String c rest =>
          if String.prefix sep s
          then EmptyString :: split_go fuel' sep (substring (String.length sep) (String.length s) s)
          else match split_go fuel' sep rest with
               | w :: ws => String c w :: ws
               | [] => [String c EmptyString]
               end
      end
  end.

Definition split (s sep : string) : list string :=
  split_go (S (String.length s)) sep s.

(** [arr[i]] on an array of strings, inside a template literal: an index
    out of range reads [undefined], printed as ["undefined"]. *)
Definition index_str (arr : list string) (i : nat) : string :=
  match nth_error arr i with Some s => s | None => "undefined" end.

(** [s.replace(pat, rep)] with a string pattern: only the first occurrence
    is replaced ([rep] holds no [$] pattern in this program). *)
Definition replace_first (s pat rep : string) : string :=
  match String.index 0 pat s with
  | Some i => substring 0 i s ++ rep ++ substring (i + String.length pat) (String.length s) s
  | None => s
  end.

Definition contains (s sub : string) : bool :=
  match String.index 0 sub s with Some _ => true | None => false end.

End JsString.

(* ================================================================= *)
(** ** chalk *)

(** chalk 4: a style is a pair of ANSI codes; [chalk.bold.red] is the
    styler chain [red] (innermost) under [bold]. [applyStyle] is chalk's
    own function, for an instance of colour level [level]. *)
Module Chalk.
Import JsString.

Record style := mkStyle { st_open : string; st_close : string }.

Definition ansi (code : string) : string := ESC ++ "[" ++ code ++ "m".
Definition bold : style := mkStyle (ansi "1") (ansi "22").
Definition red : style := mkStyle (ansi "31") (ansi "39").
Definition bgCyan : style := mkStyle (ansi "46") (ansi "49").

(** [openAll] and [closeAll] of a chain given innermost style first. *)
Definition openAll (chain : list style) : string :=
  fold_left (fun acc st => st_open st ++ acc) chain "".
Definition closeAll (chain : list style) : string :=
  fold_right (fun st acc => st_close st ++ acc) "" chain.

(** [stringReplaceAll(string, substring, replacer)]: every occurrence of
    [sub], scanned left to right, is followed by [rep]. *)
Fixpoint replace_all_go (fuel : nat) (s sub rep : string) : string :=
  match fuel with
  | O => s
  | S fuel' =>
      match s with
      | EmptyString => EmptyString
      | String c rest =>
          if String.prefix sub s
          then sub ++ rep ++ replace_all_go fuel' (substring (String.length sub) (String.length s) s) sub rep
          else String c (replace_all_go fuel' rest sub rep)
      end
  end.

Definition stringReplaceAll (s sub rep : string) : string :=
  replace_all_go (String.length s) s sub rep.

(** [stringEncaseCRLFWithFirstIndex(string, prefix, postfix, index)]: each
    line break ["\r\n"] or ["\n"] is put between [prefix] and [postfix]. *)
Fixpoint encase_crlf (s prefix postfix : string) : string :=
  match s with
  | EmptyString => EmptyString
  | String c rest =>
      if Ascii.eqb c (ascii_of_nat 13) then
        match rest with
        | String c2 rest2 =>
            if Ascii.eqb c2 (ascii_of_nat 10)
            then prefix ++ CR ++ LF ++ postfix ++ encase_crlf rest2 prefix postfix
            else String c (encase_crlf rest prefix postfix)
        | EmptyString => String c EmptyString
        end
      else if Ascii.eqb c (ascii_of_nat 10)
      then prefix ++ LF ++ postfix ++ encase_crlf rest prefix postfix
      else String c (encase_crlf rest prefix postfix)
  end.

Definition applyStyle (level : Z) (chain : list style) (s : string) : string :=
  if (level <=? 0)%Z || String.eqb s "" then s
  else
    let s1 :=
      if contains s ESC
      then fold_left (fun acc st => stringReplaceAll acc (st_close st) (st_open st)) chain s
      else s in
    let s2 := if contains s1 LF then encase_crlf s1 (closeAll chain) (openAll chain) else s1 in
    openAll chain ++ s2 ++ closeAll chain.

Definition chalk_red (level : Z) := applyStyle level [red].
Definition chalk_bold_red (level : Z) := applyStyle level [red; bold].
Definition chalk_bgCyan (level : Z) := applyStyle level [bgCyan].

(** [new Chalk(chalkOptions)]: the level is [noColors ? 0 : 1] when
    [noColors] is defined, else the level detected for stdout. *)
Definition new_chalk (noColors : option bool) (detected : Z) : Z :=
  match noColors with
  | Some b => if b then 0%Z else 1%Z
  | None => detected
  end.

End Chalk.

(* ================================================================= *)
(** ** The data of the matcher *)

(** The functions of lodash and of Node's [path] and [Buffer] that the
    matcher calls; they are taken as given. *)
Record Libs := mkLibs {
  kebabCase : string -> string;
  path_basename : string -> string;
  path_dirname : string -> string;
  path_join : list string -> string;
  buffer_base64 : string -> string  (* Buffer.from(s).toString('base64') *)
}.

(** Jest's [snapshotState._updateSnapshot]. *)
Inductive UpdateMode := UpdateAll | UpdateNew | UpdateNone.

(** Jest's [SnapshotState], as far as the matcher reads and writes it; the
    [_counters] Map is the per-test invocation counter. *)
Record RunState := mkRunState {
  matched : Z;
  added : Z;
  updated : Z;
  unmatched : Z;
  counters : gmap string Z;
  updateSnapshot : UpdateMode
}.

(** The process-wide globals: [global.UNSTABLE_SKIP_REPORTING] and
    [global[Symbol.for('RETRY_TIMES')]] (set by [jest.retryTimes]). *)
Record Globals := mkGlobals {
  UNSTABLE_SKIP_REPORTING : bool;
  RETRY_TIMES : option Z
}.

(** [parseInt(global[Symbol.for('RETRY_TIMES')], 10) || 0]. *)
Definition retryTimes_of (G : Globals) : Z :=
  match RETRY_TIMES G with Some n => n | None => 0%Z end.

(** The second argument of [lodash/merge] in [updateSnapshotState]: an
    object with a single property. *)
Inductive PartialState :=
  | PUpdated (v : Z)
  | PAdded (v : Z)
  | PMatched (v : Z)
  | PUnmatched (v : Z)
  | PCounters (m : gmap string Z).

(** [merge(originalSnapshotState, partialSnapshotState)]: the property is
    assigned (a Map is not a plain object, so merge assigns it as is). *)
Definition merge (st : RunState) (p : PartialState) : RunState :=
  match p with
  | PUpdated v => mkRunState (matched st) (added st) v (unmatched st) (counters st) (updateSnapshot st)
  | PAdded v => mkRunState (matched st) v (updated st) (unmatched st) (counters st) (updateSnapshot st)
  | PMatched v => mkRunState v (added st) (updated st) (unmatched st) (counters st) (updateSnapshot st)
  | PUnmatched v => mkRunState (matched st) (added st) (updated st) v (counters st) (updateSnapshot st)
  | PCounters m => mkRunState (matched st) (added st) (updated st) (unmatched st) m (updateSnapshot st)
  end.

(** [updateSnapshotState] (lines 32-37). *)
Definition updateSnapshotState (G : Globals) (originalSnapshotState : RunState)
    (partialSnapshotState : PartialState) : RunState :=
  if UNSTABLE_SKIP_REPORTING G then originalSnapshotState
  else merge originalSnapshotState partialSnapshotState.

Record Dimensions := mkDimensions {
  baselineWidth : float;
  baselineHeight : float;
  receivedWidth : float;
  receivedHeight : float
}.

(** The object returned by [diffImageToSnapshot] /
    [runDiffImageToSnapshot], read property by property. *)
Record ComparisonResult := mkResult {
  res_updated : bool;
  res_added : bool;
  res_pass : bool;
  diffRatio : float;
  diffPixelCount : float;
  diffSize : bool;
  imageDimensions : Dimensions;
  diffOutputPath : string;
  imgSrcString : string
}.

(** The literal [{ updated: true }] of line 286; its other properties are
    absent and [checkResult] reads none of them. *)
Definition updated_result : ComparisonResult :=
  mkResult true false false 0%float 0%float false
    (mkDimensions 0%float 0%float 0%float 0%float) "undefined" "undefined".

(** [process.env]. *)
Abbreviation Env := (gmap string string).

(** The verdict [{ message, pass }]; [message] is a closure that reads
    [process.env] when called. *)
Record Verdict := mkVerdict {
  pass : bool;
  message : Env -> string
}.

(* ================================================================= *)
(** ** [checkResult] (lines 39-104) *)

Section CheckResult.
Import JsString.
Local Open Scope float_scope.

Variable L : Libs.

Definition supportedInlineTerms : list string := ["iTerm.app"; "WezTerm"].

(** [supportedInlineTerms.includes(process.env.TERM_PROGRAM)]. *)
Definition inline_term (env : Env) : bool :=
  match env !! "TERM_PROGRAM" with
  | Some t => existsb (String.eqb t) supportedInlineTerms
  | None => false
  end.

(** ['ENABLE_INLINE_DIFF' in process.env]. *)
Definition inline_enabled (env : Env) : bool :=
  match env !! "ENABLE_INLINE_DIFF" with Some _ => true | None => false end.

(** The message closure of lines 74-96, with [differencePercentage]
    (line 73) computed when the closure is built. *)
Definition failure_message (result : ComparisonResult) (chalk : Z)
    (dumpDiffToConsole dumpInlineDiffToConsole allowSizeMismatch : bool)
    (differencePercentage : float) (env : Env) : string :=
  let ts := JsNumber.to_string in
  let dims := imageDimensions result in
  let failure :=
    if diffSize result && negb allowSizeMismatch then
      "Expected image to be the same size as the snapshot (" ++ ts (baselineWidth dims) ++ "x"
        ++ ts (baselineHeight dims) ++ "), but was different (" ++ ts (receivedWidth dims) ++ "x"
        ++ ts (receivedHeight dims) ++ ")." ++ LF
    else
      "Expected image to match or be a close match to snapshot but was " ++ ts differencePercentage
        ++ "% different from snapshot (" ++ ts (diffPixelCount result) ++ " differing pixels)." ++ LF in
  let failure := failure ++ Chalk.chalk_bold_red chalk "See diff for details:" ++ " "
                   ++ Chalk.chalk_red chalk (diffOutputPath result) in
  if dumpInlineDiffToConsole && (inline_term env || inline_enabled env) then
    failure ++ LF ++ LF ++ TAB ++ ESC ++ "]1337;File=name=" ++ buffer_base64 L (diffOutputPath result)
      ++ ";inline=1;width=40:" ++ replace_first (imgSrcString result) "data:image/png;base64," ""
      ++ BEL ++ ESC ++ LF ++ LF
  else if dumpDiffToConsole || dumpInlineDiffToConsole then
    failure ++ LF ++ Chalk.chalk_bold_red chalk "Or paste below image diff string to your browser`s URL bar."
      ++ LF ++ " " ++ imgSrcString result
  else failure.

(** [checkResult]: the verdict and the snapshot state after the call.
    [timesCalled] is the retry ledger; [currentRun > retryTimes] is false
    when the ledger has no entry ([undefined > n]). *)
Definition checkResult (G : Globals) (timesCalled : gmap string Z)
    (result : ComparisonResult) (snapshotState : RunState) (retryTimes : Z)
    (snapshotIdentifier : string) (chalk : Z)
    (dumpDiffToConsole dumpInlineDiffToConsole allowSizeMismatch : bool) : Verdict * RunState :=
  if res_updated result then
    (mkVerdict true (fun _ => ""),
     updateSnapshotState G snapshotState (PUpdated (updated snapshotState + 1)%Z))
  else if res_added result then
    (mkVerdict true (fun _ => ""),
     updateSnapshotState G snapshotState (PAdded (added snapshotState + 1)%Z))
  else if res_pass result then
    (mkVerdict true (fun _ => ""),
     updateSnapshotState G snapshotState (PMatched (matched snapshotState + 1)%Z))
  else
    let currentRun := timesCalled !! snapshotIdentifier in
    let final :=
      (retryTimes =? 0)%Z
      || match currentRun with Some n => (retryTimes <? n)%Z | None => false end in
    let st := if final
              then updateSnapshotState G snapshotState (PUnmatched (unmatched snapshotState + 1)%Z)
              else snapshotState in
    let differencePercentage := diffRatio result * 100 in
    (mkVerdict false (failure_message result chalk dumpDiffToConsole dumpInlineDiffToConsole
                        allowSizeMismatch differencePercentage),
     st).

End CheckResult.

(* ================================================================= *)
(** ** [createSnapshotIdentifier] (lines 106-139) *)

(** A call either returns a value or throws an [Error] with a message. *)
Inductive Outcome (A : Type) :=
  | Ok (a : A)
  | Throw (e : string).
Arguments Ok {A} a.
Arguments Throw {A} e.

(** The object passed to a custom identifier function. *)
Record IdentifierArgs := mkIdentifierArgs {
  ia_testPath : string;
  ia_currentTestName : string;
  ia_counter : option Z;
  ia_defaultIdentifier : string
}.

(** A defined [customSnapshotIdentifier]: a string or a function; a
    function returning a falsy value is one returning [""]. *)
Inductive CustomIdentifier :=
  | CIString (s : string)
  | CIFunction (f : IdentifierArgs -> string).

(** Truthiness of [customSnapshotIdentifier] ([undefined] is [None]). *)
Definition custom_truthy (c : option CustomIdentifier) : bool :=
  match c with
  | None => false
  | Some (CIString s) => negb (String.eqb s "")
  | Some (CIFunction _) => true
  end.

(** [${counter}] for a Map entry that may be [undefined]. *)
Definition counter_str (c : option Z) : string :=
  match c with Some n => pretty n | None => "undefined" end.

Definition retry_error : string :=
  "A unique customSnapshotIdentifier must be set when jest.retryTimes() is used".

Section CreateSnapshotIdentifier.
Import JsString.
Variable L : Libs.

(** The resolved identifier and the module-level [timesCalled] ledger
    after the call. *)
Definition createSnapshotIdentifier (timesCalled : gmap string Z) (retryTimes : Z)
    (testPath currentTestName : string) (customSnapshotIdentifier : option CustomIdentifier)
    (snapshotState : RunState) : Outcome (string * gmap string Z) :=
  let counter := counters snapshotState !! currentTestName in
  let dirName := split currentTestName "..." in
  let itTitle := index_str dirName 1 in
  let defaultIdentifier :=
    kebabCase L (path_basename L testPath ++ "-" ++ currentTestName ++ "-" ++ counter_str counter) in
  let resolved : Outcome string :=
    match customSnapshotIdentifier with
    | Some (CIFunction f) =>
        let customRes := f (mkIdentifierArgs testPath currentTestName counter defaultIdentifier) in
        if negb (retryTimes =? 0)%Z && String.eqb customRes ""
        then Throw retry_error
        else Ok (if String.eqb customRes "" then defaultIdentifier else customRes)
    | Some (CIString s) => Ok (if String.eqb s "" then itTitle ++ "-snap" else s)
    | None => Ok (itTitle ++ "-snap")
    end in
  match resolved with
  | Throw e => Throw e
  | Ok snapshotIdentifier =>
      if negb (retryTimes =? 0)%Z then
        if negb (custom_truthy customSnapshotIdentifier) then Throw retry_error
        else Ok (snapshotIdentifier,
                 <[snapshotIdentifier := (default 0 (timesCalled !! snapshotIdentifier) + 1)%Z]> timesCalled)
      else Ok (snapshotIdentifier, timesCalled)
  end.

End CreateSnapshotIdentifier.

(* ================================================================= *)
(** ** Options of [configureToMatchImageSnapshot] and of the matcher *)

(** Options as passed by the caller: [None] is an absent (or [undefined])
    property. *)
Record Given := mkGiven {
  g_customDiffConfig : option (gmap string string);
  g_customSnapshotIdentifier : option CustomIdentifier;
  g_customSnapshotsDir : option string;
  g_storeReceivedOnFailure : option bool;
  g_customReceivedDir : option string;
  g_customReceivedPostfix : option string;
  g_customDiffDir : option string;
  g_onlyDiff : option bool;
  g_diffDirection : option string;
  g_noColors : option bool;
  g_failureThreshold : option float;
  g_failureThresholdType : option string;
  g_updatePassedSnapshot : option bool;
  g_blur : option float;
  g_runInProcess : option bool;
  g_dumpDiffToConsole : option bool;
  g_dumpInlineDiffToConsole : option bool;
  g_allowSizeMismatch : option bool;
  g_comparisonMethod : option string
}.

Definition no_options : Given :=
  mkGiven None None None None None None None None None None None None None None None None None None None.

(** Options after the default parameters are applied. *)
Record Options := mkOptions {
  customDiffConfig : gmap string string;
  customSnapshotIdentifier : option CustomIdentifier;
  customSnapshotsDir : option string;
  storeReceivedOnFailure : bool;
  customReceivedDir : option string;
  customReceivedPostfix : string;
  customDiffDir : option string;
  onlyDiff : bool;
  diffDirection : string;
  noColors : option bool;
  failureThreshold : float;
  failureThresholdType : string;
  updatePassedSnapshot : bool;
  blur : float;
  runInProcess : bool;
  dumpDiffToConsole : bool;
  dumpInlineDiffToConsole : bool;
  allowSizeMismatch : bool;
  comparisonMethod : string
}.

(** The default parameters of [configureToMatchImageSnapshot] (141-161). *)
Definition common_defaults (c : Given) : Options :=
  mkOptions (default ∅ (g_customDiffConfig c)) (g_customSnapshotIdentifier c)
    (g_customSnapshotsDir c) (default true (g_storeReceivedOnFailure c))
    (g_customReceivedDir c) (default "-received" (g_customReceivedPostfix c))
    (g_customDiffDir c) (default false (g_onlyDiff c))
    (default "horizontal" (g_diffDirection c)) (g_noColors c)
    (default 0%float (g_failureThreshold c)) (default "pixel" (g_failureThresholdType c))
    (default false (g_updatePassedSnapshot c)) (default 0%float (g_blur c))
    (default false (g_runInProcess c)) (default false (g_dumpDiffToConsole c))
    (default false (g_dumpInlineDiffToConsole c)) (default false (g_allowSizeMismatch c))
    (default "pixelmatch" (g_comparisonMethod c)).

(** The default parameters of [toMatchImageSnapshot] (162-182): each falls
    back to the common value, except [customDiffConfig] (default [{}]). *)
Definition call_defaults (common : Options) (c : Given) : Options :=
  let pick {A} (x : option A) (d : A) := default d x in
  let pick_opt {A} (x : option A) (d : option A) := match x with Some _ => x | None => d end in
  mkOptions (default ∅ (g_customDiffConfig c))
    (pick_opt (g_customSnapshotIdentifier c) (customSnapshotIdentifier common))
    (pick_opt (g_customSnapshotsDir c) (customSnapshotsDir common))
    (pick (g_storeReceivedOnFailure c) (storeReceivedOnFailure common))
    (pick_opt (g_customReceivedDir c) (customReceivedDir common))
    (pick (g_customReceivedPostfix c) (customReceivedPostfix common))
    (pick_opt (g_customDiffDir c) (customDiffDir common))
    (pick (g_onlyDiff c) (onlyDiff common))
    (pick (g_diffDirection c) (diffDirection common))
    (pick_opt (g_noColors c) (noColors common))
    (pick (g_failureThreshold c) (failureThreshold common))
    (pick (g_failureThresholdType c) (failureThresholdType common))
    (pick (g_updatePassedSnapshot c) (updatePassedSnapshot common))
    (pick (g_blur c) (blur common))
    (pick (g_runInProcess c) (runInProcess common))
    (pick (g_dumpDiffToConsole c) (dumpDiffToConsole common))
    (pick (g_dumpInlineDiffToConsole c) (dumpInlineDiffToConsole common))
    (pick (g_allowSizeMismatch c) (allowSizeMismatch common))
    (pick (g_comparisonMethod c) (comparisonMethod common)).

(* ================================================================= *)
(** ** The world the matcher runs in *)

(** The file system: path to contents. *)
Abbreviation Files := (gmap string string).

(** [fs.existsSync]. *)
Definition existsSync (files : Files) (p : string) : bool :=
  match files !! p with Some _ => true | None => false end.

(** [fs.renameSync(src, dst)]: throws when [src] does not exist. *)
Definition renameSync (files : Files) (src dst : string) : Outcome Files :=
  match files !! src with
  | Some contents => Ok (<[dst := contents]> (delete src files))
  | None => Throw ("ENOENT: no such file or directory, rename '" ++ src ++ "' -> '" ++ dst ++ "'")
  end.

(** The member [syncExists] of the [fs] module the matcher loaded:
    [None] when the property is [undefined]. *)
Record FsModule := mkFsModule {
  fs_syncExists : option (Files -> string -> bool)
}.

(** Node's [fs] has no [syncExists] member. *)
Definition node_fs : FsModule := mkFsModule None.

(** The argument object of [diffImageToSnapshot] (lines 228-246). *)
Record CompareArgs := mkCompareArgs {
  ca_receivedImageBuffer : string;
  ca_snapshotsDir : string;
  ca_storeReceivedOnFailure : bool;
  ca_receivedDir : string;
  ca_receivedPostfix : string;
  ca_diffDir : string;
  ca_diffDirection : string;
  ca_onlyDiff : bool;
  ca_snapshotIdentifier : string;
  ca_updateSnapshot : bool;
  ca_customDiffConfig : gmap string string;
  ca_failureThreshold : float;
  ca_failureThresholdType : string;
  ca_updatePassedSnapshot : bool;
  ca_blur : float;
  ca_allowSizeMismatch : bool;
  ca_comparisonMethod : string
}.

(** The image comparison of [./diff-snapshot], in process and in a child
    process: a result, and the files it leaves behind. *)
Record Engine := mkEngine {
  diffImageToSnapshot : CompareArgs -> Files -> ComparisonResult * Files;
  runDiffImageToSnapshot : CompareArgs -> Files -> ComparisonResult * Files
}.

(** How [Promise.race([timeout, prompt.run()])] settles: the prompt
    answers first, the 60 s timer fires first ([false]), or the prompt
    rejects first. *)
Inductive Race :=
  | RaceAnswer (b : bool)
  | RaceTimeout
  | RaceRejected (e : string).

Record Prompts := mkPrompts {
  view_race : Race;
  update_race : Race
}.

(** [this] of the matcher, apart from [snapshotState]. *)
Record TestContext := mkTestContext {
  testPath : string;
  currentTestName : string;
  isNot : bool
}.

(** The process state the matcher threads: the module-level
    [timesCalled] Map and the file system. *)
Record Proc := mkProc {
  timesCalled : gmap string Z;
  files : Files
}.

(** The observable effects of a call, in order. *)
Inductive Event :=
  | ETouch (p : string)              (* OutdatedSnapshotReporter.markTouchedFile *)
  | ECompare (inProcess : bool)      (* imageToSnapshot(...) *)
  | ENotify (title msg : string)     (* notifier.notify *)
  | EStdout (s : string)             (* process.stdout.write *)
  | EPromptRun (name : string)       (* new Confirm({ name, ... }).run() *)
  | EExec (cmd : string)             (* childProc.exec *)
  | EPromptStop (name : string)      (* prompt.stop() *)
  | ERename (src dst : string).      (* fs.renameSync *)

(** The settled promise of a call, with the state it leaves. *)
Record Run := mkRun {
  run_outcome : Outcome Verdict;
  run_state : RunState;
  run_proc : Proc;
  run_trace : list Event
}.

(* ================================================================= *)
(** ** [toMatchImageSnapshot] (lines 162-302) *)

Definition SNAPSHOTS_DIR := "__image_snapshots__".
Definition DIFF_DIR := "__diff_output".
Definition RECEIVED_DIR := "__received_snapshots__".

Section Matcher.
Import JsString.

Variable L : Libs.
Variable E : Engine.
Variable fsm : FsModule.
Variable G : Globals.
(** The colour level chalk detects for stdout. *)
Variable detectedLevel : Z.
Variable prompts : Prompts.

(** [customX || path.join(path.dirname(testPath), DIR, kebabCase(describeName))]. *)
Definition dir_or (custom : option string) (testPath' dirname describeName : string) : string :=
  match custom with
  | Some d => if String.eqb d "" then path_join L [path_dirname L testPath'; dirname; kebabCase L describeName] else d
  | None => path_join L [path_dirname L testPath'; dirname; kebabCase L describeName]
  end.

Definition not_written_message (chalk : Z) (_ : Env) : string :=
  "New snapshot was " ++ Chalk.chalk_bold_red chalk "not written" ++ ". The update flag must be explicitly "
  ++ "passed to write a new snapshot." ++ LF ++ LF ++ " + This is likely because this test is run in a continuous "
  ++ "integration (CI) environment in which snapshots are not written by default." ++ LF ++ LF.

(** [await Promise.race([timeout, prompt.run()])]. *)
Definition race_value (r : Race) : Outcome bool :=
  match r with
  | RaceAnswer b => Ok b
  | RaceTimeout => Ok false
  | RaceRejected e => Throw e
  end.

(** Lines 250-289, from the comparison's [result]: the result handed to
    [checkResult], the files and the effects, or the error thrown. *)
Definition review (currentTestName' snapshotIdentifier snapshotsDir receivedDir receivedPostfix diffDir : string)
    (chalk : Z) (result : ComparisonResult) (fs0 : Files)
    : Outcome (ComparisonResult * Files) * list Event :=
  let receivedPath := path_join L [receivedDir; snapshotIdentifier ++ receivedPostfix ++ ".png"] in
  let tr1 := [ENotify "Snapshot test failed!" ("Received diff for " ++ currentTestName');
              EStdout (LF ++ Chalk.chalk_bgCyan chalk ("Received difference for " ++ currentTestName') ++ LF);
              EPromptRun "View Question"] in
  match race_value (view_race prompts) with
  | Throw e => (Throw e, tr1)
  | Ok viewAction =>
      let tr2 := (tr1 ++ [if viewAction
                         then EExec ("open -a " ++ DQUOTE ++ "Google Chrome file://" ++ diffDir ++ "/" ++ snapshotIdentifier ++ "-diff.png")
                         else EPromptStop "View Question";
                         EPromptRun "Update Question"])%list in
      match race_value (update_race prompts) with
      | Throw e => (Throw e, tr2)
      | Ok true =>
          let baseline := path_join L [snapshotsDir; snapshotIdentifier ++ ".png"] in
          match renameSync fs0 receivedPath baseline with
          | Throw e => (Throw e, tr2)
          | Ok fs1 => (Ok (updated_result, fs1), (tr2 ++ [ERename receivedPath baseline])%list)
          end
      | Ok false => (Ok (result, fs0), (tr2 ++ [EPromptStop "Update Question"])%list)
      end
  end.

(** The options in force for a call of the matcher configured with [common]. *)
Definition resolved_options (common call : Given) : Options :=
  call_defaults (common_defaults common) call.

(** Line 197: [snapshotState._counters.set(...)] mutates the Map held by
    [snapshotState] while the argument is evaluated, then
    [updateSnapshotState] merges the same Map back. *)
Definition record_invocation (snapshotState : RunState) (name : string) : RunState :=
  let newCounters := <[name := (default 0 (counters snapshotState !! name) + 1)%Z]> (counters snapshotState) in
  let st0 := mkRunState (matched snapshotState) (added snapshotState) (updated snapshotState)
               (unmatched snapshotState) newCounters (updateSnapshot snapshotState) in
  updateSnapshotState G st0 (PCounters newCounters).

(** Lines 207-208: the describe-block part of the test name. *)
Definition describe_name (name : string) : string := index_str (split name "...") 0.

(** Line 209 and line 213: the baseline file of an identifier. *)
Definition baseline_path (o : Options) (ctx : TestContext) (snapshotIdentifier : string) : string :=
  let snapshotsDir := dir_or (customSnapshotsDir o) (testPath ctx) SNAPSHOTS_DIR (describe_name (currentTestName ctx)) in
  path_join L [snapshotsDir; snapshotIdentifier ++ ".png"].

(** [toMatchImageSnapshot], as returned by [configureToMatchImageSnapshot(common)],
    called with [this = { testPath, currentTestName, isNot, snapshotState }]. *)
Definition toMatchImageSnapshot (common : Given) (ctx : TestContext) (received : string)
    (call : Given) (snapshotState : RunState) (proc : Proc) : Run :=
  let cfg := common_defaults common in
  let o := resolved_options common call in
  let chalk := Chalk.new_chalk (noColors o) detectedLevel in
  let retryTimes := retryTimes_of G in
  if isNot ctx then
    mkRun (Throw "Jest: `.not` cannot be used with `.toMatchImageSnapshot()`.") snapshotState proc []
  else
  let name := currentTestName ctx in
  let st := record_invocation snapshotState name in
  match createSnapshotIdentifier L (timesCalled proc) retryTimes (testPath ctx) name
          (customSnapshotIdentifier o) st with
  | Throw e => mkRun (Throw e) st proc []
  | Ok (snapshotIdentifier, ledger) =>
      let proc1 := mkProc ledger (files proc) in
      let describeName := describe_name name in
      let snapshotsDir := dir_or (customSnapshotsDir o) (testPath ctx) SNAPSHOTS_DIR describeName in
      let receivedDir := dir_or (customReceivedDir o) (testPath ctx) RECEIVED_DIR describeName in
      let diffDir := dir_or (customDiffDir o) (testPath ctx) DIFF_DIR describeName in
      let receivedPostfix := customReceivedPostfix o in
      let baselineSnapshotPath := baseline_path o ctx snapshotIdentifier in
      let tr0 := [ETouch baselineSnapshotPath] in
      if (match updateSnapshot st with UpdateNone => true | _ => false end)
         && negb (existsSync (files proc1) baselineSnapshotPath) then
        mkRun (Ok (mkVerdict false (not_written_message chalk))) st proc1 tr0
      else
      let args := mkCompareArgs received snapshotsDir (storeReceivedOnFailure o) receivedDir
                    receivedPostfix diffDir (diffDirection o) (onlyDiff o) snapshotIdentifier
                    (match updateSnapshot st with UpdateAll => true | _ => false end)
                    (customDiffConfig o ∪ customDiffConfig cfg) (failureThreshold o)
                    (failureThresholdType o) (updatePassedSnapshot o) (blur o)
                    (allowSizeMismatch o) (comparisonMethod o) in
      let '(result, fs1) :=
        (if runInProcess o then diffImageToSnapshot E else runDiffImageToSnapshot E) args (files proc1) in
      let proc2 := mkProc ledger fs1 in
      let tr1 := (tr0 ++ [ECompare (runInProcess o)])%list in
      match fs_syncExists fsm with
      | None => mkRun (Throw "TypeError: fs.syncExists is not a function") st proc2 tr1
      | Some syncExists =>
          let receivedPath := path_join L [receivedDir; snapshotIdentifier ++ receivedPostfix ++ ".png"] in
          let '(reviewed, tr2) :=
            if syncExists fs1 receivedPath
            then review name snapshotIdentifier snapshotsDir receivedDir receivedPostfix diffDir chalk result fs1
            else (Ok (result, fs1), []) in
          match reviewed with
          | Throw e => mkRun (Throw e) st proc2 (tr1 ++ tr2)%list
          | Ok (result', fs2) =>
              let '(verdict, st') :=
                checkResult L G ledger result' st retryTimes snapshotIdentifier chalk
                  (dumpDiffToConsole o) (dumpInlineDiffToConsole o) (allowSizeMismatch o) in
              mkRun (Ok verdict) st' (mkProc ledger fs2) (tr1 ++ tr2)%list
          end
      end
  end.

End Matcher.


(* ================================================================= *)
(** ** Observations and sample inputs *)

(** [sub] occurs in [s]. *)
Definition has_substring (s sub : string) : Prop :=
  exists pre post, s = pre ++ sub ++ post.

(** The review workflow started: the desktop notification was sent. *)
Definition workflow_entered (r : Run) : bool :=
  existsb (fun ev => match ev with ENotify _ _ => true | _ => false end) (run_trace r).

(** [s.includes(sub)], scanned from each position of [s]. *)
Fixpoint includes (s sub : string) : bool :=
  String.prefix sub s || match s with EmptyString => false | String _ rest => includes rest sub end.


(** The total of the four outcome counters of a run state. *)
Definition outcomes (st : RunState) : Z := (matched st + added st + updated st + unmatched st)%Z.

(** The image comparison ran during the call. *)
Definition comparison_ran (r : Run) : bool :=
  existsb (fun ev => match ev with ECompare _ => true | _ => false end) (run_trace r).

Local Set Warnings "-inexact-float".

(** Stand-ins for lodash and [path] in concrete runs (POSIX joins). *)
Definition sample_libs : Libs :=
  mkLibs (fun s => s) (fun s => s) (fun _ => "tests") (String.concat "/") (fun s => s).

Definition sample_dims : Dimensions := mkDimensions 100%float 80%float 120%float 80%float.

(** A failing comparison: 2.3% of the pixels (45 of them) differ. *)
Definition failing_result : ComparisonResult :=
  mkResult false false false 0.023%float 45%float false sample_dims
    "tests/__diff_output/d/it-snap-diff.png" "data:image/png;base64,AAAA".

Definition passing_result : ComparisonResult :=
  mkResult false false true 0%float 0%float false sample_dims
    "tests/__diff_output/d/it-snap-diff.png" "data:image/png;base64,AAAA".

(** A comparison engine returning [r] and writing the received image on
    failure, as [storeReceivedOnFailure] asks. *)
Definition engine_of (r : ComparisonResult) : Engine :=
  let f (args : CompareArgs) (fs : Files) :=
    (r, if res_pass r then fs
        else <[ca_receivedDir args ++ "/" ++ ca_snapshotIdentifier args ++ ca_receivedPostfix args ++ ".png"
               := ca_receivedImageBuffer args]> fs) in
  mkEngine f f.

Definition sample_state (mode : UpdateMode) : RunState := mkRunState 0 0 0 0 ∅ mode.
Definition sample_ctx : TestContext := mkTestContext "tests/img.test.js" "D...it" false.
Definition reporting : Globals := mkGlobals false None.
Definition skipping : Globals := mkGlobals true None.
Definition timeout_prompts : Prompts := mkPrompts RaceTimeout RaceTimeout.
Definition confirm_prompts : Prompts := mkPrompts RaceTimeout (RaceAnswer true).



(** The baseline of [sample_ctx] with the default identifier. *)
Definition sample_baseline : string := "tests/__image_snapshots__/D/it-snap.png".
Definition sample_files : Files := <[sample_baseline := "baseline-bytes"]> ∅.

(** An update-new run with a baseline present, a failing comparison that
    stores the received image, and a user who confirms the update. *)
Definition update_confirmed_run : Run :=
  toMatchImageSnapshot sample_libs (engine_of failing_result) node_fs reporting 1 confirm_prompts
    no_options sample_ctx "received-bytes" no_options (sample_state UpdateNew) (mkProc ∅ sample_files).

(* ================================================================= *)
(** * Properties *)

(** ** General lemmas *)

Lemma string_app_assoc (a b c : string) : (a ++ b) ++ c = a ++ (b ++ c).
Proof. induction a as [|x a IH]; [reflexivity |]. exact (f_equal (String x) IH). Qed.

Lemma has_substring_app_l (a b sub : string) :
  has_substring a sub -> has_substring (a ++ b) sub.
Proof.
  intros (pre & post & ->). exists pre, (post ++ b).
  rewrite string_app_assoc. now rewrite string_app_assoc.
Qed.

Lemma has_substring_app_r (a b sub : string) :
  has_substring b sub -> has_substring (a ++ b) sub.
Proof.
  intros (pre & post & ->). exists (a ++ pre), post.
  now rewrite string_app_assoc.
Qed.

Lemma updateSnapshotState_skip (G : Globals) (st : RunState) (p : PartialState) :
  UNSTABLE_SKIP_REPORTING G = true -> updateSnapshotState G st p = st.
Proof. intros H. unfold updateSnapshotState. now rewrite H. Qed.

Lemma checkResult_skip L G tc r st rt id ch d1 d2 a :
  UNSTABLE_SKIP_REPORTING G = true ->
  snd (checkResult L G tc r st rt id ch d1 d2 a) = st.
Proof.
  intros H. unfold checkResult.
  repeat (case_match; simpl; rewrite ?updateSnapshotState_skip by exact H); auto.
Qed.

(** ** Outcome bookkeeping of a failing comparison under retries *)

(** C1 (counterexample): with [global.UNSTABLE_SKIP_REPORTING] set, a failing
    comparison with retries disabled ([retryTimes = 0]) does not increment
    [unmatched]: it stays 0 where the claim expects [0 + 1]. *)
Lemma C1_skip_reporting_counterexample :
  let st := sample_state UpdateNew in
  unmatched st = 0%Z /\
  unmatched (snd (checkResult sample_libs skipping ∅ failing_result st 0 "it-snap" 0 false false false)) = 0%Z.
Proof. split; vm_compute; reflexivity. Qed.

(** C1 (amended): for a failing comparison ([Compared{pass:false}]),
    [checkResult] leaves the run state unchanged when suppress-reporting is
    set. When it is unset: if retries are active and the ledger count
    [currentRun] of the identifier is [<= retryTimes], the state is unchanged
    (no [unmatched] increment); if [retryTimes = 0] or [currentRun >
    retryTimes], [unmatched] is incremented exactly once and nothing else
    changes. *)
Theorem checkResult_unmatched_retries L G (timesCalled : gmap string Z) r st
    (retryTimes : Z) id ch d1 d2 a :
  res_updated r = false -> res_added r = false -> res_pass r = false ->
  let st' := snd (checkResult L G timesCalled r st retryTimes id ch d1 d2 a) in
  (UNSTABLE_SKIP_REPORTING G = true -> st' = st) /\
  (UNSTABLE_SKIP_REPORTING G = false ->
     (forall currentRun, retryTimes <> 0%Z -> timesCalled !! id = Some currentRun ->
        (currentRun <= retryTimes)%Z -> st' = st) /\
     ((retryTimes = 0%Z \/ exists currentRun, timesCalled !! id = Some currentRun /\ (retryTimes < currentRun)%Z) ->
        st' = mkRunState (matched st) (added st) (updated st) (unmatched st + 1)
                (counters st) (updateSnapshot st))).
Proof.
  intros Hu Ha Hp st'. subst st'.
  split; [apply checkResult_skip |].
  intros Hs. unfold checkResult. rewrite Hu, Ha, Hp. simpl.
  unfold updateSnapshotState. rewrite Hs. split.
  - intros n Hr Hl Hle. rewrite Hl.
    replace (retryTimes =? 0)%Z with false by (symmetry; apply Z.eqb_neq; exact Hr).
    replace (retryTimes <? n)%Z with false by (symmetry; apply Z.ltb_ge; exact Hle).
    reflexivity.
  - intros [-> | (n & Hl & Hlt)]; [reflexivity |].
    rewrite Hl. replace (retryTimes <? n)%Z with true by (symmetry; apply Z.ltb_lt; exact Hlt).
    rewrite orb_true_r. reflexivity.
Qed.

Lemma checkResult_unmatched_retries_witness :
  res_updated failing_result = false /\ res_added failing_result = false /\ res_pass failing_result = false /\
  let st' := snd (checkResult sample_libs reporting (<["it-snap" := 3%Z]> ∅) failing_result
                    (sample_state UpdateNew) 2 "it-snap" 0 false false false) in
  (UNSTABLE_SKIP_REPORTING reporting = true -> st' = sample_state UpdateNew) /\
  (UNSTABLE_SKIP_REPORTING reporting = false ->
     (forall currentRun, 2%Z <> 0%Z -> (<["it-snap" := 3%Z]> ∅ : gmap string Z) !! "it-snap" = Some currentRun ->
        (currentRun <= 2)%Z -> st' = sample_state UpdateNew) /\
     ((2%Z = 0%Z \/ exists currentRun, (<["it-snap" := 3%Z]> ∅ : gmap string Z) !! "it-snap" = Some currentRun /\ (2 < currentRun)%Z) ->
        st' = mkRunState 0 0 0 1 ∅ UpdateNew)).
Proof.
  split; [reflexivity |]. split; [reflexivity |]. split; [reflexivity |].
  apply (checkResult_unmatched_retries sample_libs reporting (<["it-snap" := 3%Z]> ∅) failing_result
           (sample_state UpdateNew) 2 "it-snap" 0 false false false); reflexivity.
Defined.

(** ** The run state after a call of the matcher *)

(** Where the state a call leaves comes from: untouched ([.not]), the
    invocation recorded (line 197) and nothing more, or [checkResult] run
    on the state with the invocation recorded. *)
Lemma toMatchImageSnapshot_state L E fsm G lvl prompts common ctx received call st proc :
  let r := toMatchImageSnapshot L E fsm G lvl prompts common ctx received call st proc in
  (isNot ctx = true /\ run_state r = st) \/
  (isNot ctx = false /\
   (run_state r = record_invocation G st (currentTestName ctx) \/
    exists tc res id ch d1 d2 a,
      run_state r = snd (checkResult L G tc res (record_invocation G st (currentTestName ctx))
                           (retryTimes_of G) id ch d1 d2 a))).
Proof.
  intros r. subst r. unfold toMatchImageSnapshot.
  destruct (isNot ctx) eqn:Hn; [left; auto | right; split; [reflexivity |]].
  repeat (case_match; simpl; try (left; reflexivity)).
  all: right; do 7 eexists; match goal with H : checkResult _ _ _ _ _ _ _ _ _ _ _ = _ |- _ => rewrite H end;
       reflexivity.
Qed.

(** ** Suppressed reporting *)

(** C2 (counterexample): with suppress-reporting set, a call (here one that
    finds no baseline in update mode [none]) still changes the per-test
    invocation-counter map: the entry of ["D...it"] goes from absent to 1. *)
Lemma C2_counters_change_counterexample :
  let st := sample_state UpdateNone in
  let r := toMatchImageSnapshot sample_libs (engine_of failing_result) node_fs skipping 1
             timeout_prompts no_options sample_ctx "img" no_options st (mkProc ∅ ∅) in
  counters st !! "D...it" = None /\ counters (run_state r) !! "D...it" = Some 1%Z.
Proof. split; vm_compute; reflexivity. Qed.

(** C2 (what the code does): with [global.UNSTABLE_SKIP_REPORTING] set, no
    call of the matcher changes [matched], [added], [updated], [unmatched]
    (nor the update mode), as the guard in [updateSnapshotState] intends;
    but the per-test invocation counter of the test is still incremented,
    unless the call throws for [.not] first: line 197 mutates the shared
    [_counters] Map with [Map.set] while building the argument, before the
    guard that suppresses the merge runs. *)
Theorem skip_reporting_frame L E fsm G lvl prompts common ctx received call st proc :
  UNSTABLE_SKIP_REPORTING G = true ->
  let st' := run_state (toMatchImageSnapshot L E fsm G lvl prompts common ctx received call st proc) in
  matched st' = matched st /\ added st' = added st /\ updated st' = updated st /\
  unmatched st' = unmatched st /\ updateSnapshot st' = updateSnapshot st /\
  counters st' = (if isNot ctx then counters st
                  else <[currentTestName ctx := (default 0 (counters st !! currentTestName ctx) + 1)%Z]>
                         (counters st)).
Proof.
  intros Hs st'. subst st'.
  destruct (toMatchImageSnapshot_state L E fsm G lvl prompts common ctx received call st proc)
    as [[Hn ->] | [Hn [-> | (tc & res & id & ch & d1 & d2 & a & ->)]]].
  - rewrite Hn. auto 6.
  - rewrite Hn. unfold record_invocation. rewrite updateSnapshotState_skip by exact Hs. simpl. auto 6.
  - rewrite Hn, checkResult_skip by exact Hs.
    unfold record_invocation. rewrite updateSnapshotState_skip by exact Hs. simpl. auto 6.
Qed.

Lemma skip_reporting_frame_witness :
  UNSTABLE_SKIP_REPORTING skipping = true /\
  let st' := run_state (toMatchImageSnapshot sample_libs (engine_of failing_result) node_fs skipping 1
               timeout_prompts no_options sample_ctx "img" no_options (sample_state UpdateNone) (mkProc ∅ ∅)) in
  matched st' = 0%Z /\ added st' = 0%Z /\ updated st' = 0%Z /\
  unmatched st' = 0%Z /\ updateSnapshot st' = UpdateNone /\
  counters st' = (if isNot sample_ctx then ∅
                  else <[currentTestName sample_ctx := (default 0 ((∅ : gmap string Z) !! currentTestName sample_ctx) + 1)%Z]> ∅).
Proof.
  split; [reflexivity |].
  apply (skip_reporting_frame sample_libs (engine_of failing_result) node_fs skipping 1 timeout_prompts
           no_options sample_ctx "img" no_options (sample_state UpdateNone) (mkProc ∅ ∅)).
  reflexivity.
Defined.

(** ** The identifier without a custom override *)

(** C3 (counterexample): with no custom identifier and retries disabled,
    two assertions of the test ["D...it"] (invocation counters 1 and 2), and
    two tests ["A...it"] and ["B...it"] differing only in their describe
    prefix, all resolve to the identifier ["it-snap"]. *)
Lemma C3_identifier_collision_counterexample :
  createSnapshotIdentifier sample_libs ∅ 0 "tests/img.test.js" "D...it" None
    (mkRunState 0 0 0 0 (<["D...it" := 1%Z]> ∅) UpdateNew) = Ok ("it-snap", ∅) /\
  createSnapshotIdentifier sample_libs ∅ 0 "tests/img.test.js" "D...it" None
    (mkRunState 0 0 0 0 (<["D...it" := 2%Z]> ∅) UpdateNew) = Ok ("it-snap", ∅) /\
  createSnapshotIdentifier sample_libs ∅ 0 "tests/img.test.js" "A...it" None
    (mkRunState 0 0 0 0 (<["A...it" := 1%Z]> ∅) UpdateNew) = Ok ("it-snap", ∅) /\
  createSnapshotIdentifier sample_libs ∅ 0 "tests/img.test.js" "B...it" None
    (mkRunState 0 0 0 0 (<["B...it" := 1%Z]> ∅) UpdateNew) = Ok ("it-snap", ∅).
Proof. repeat split; vm_compute; reflexivity. Qed.

(** C3 (amended): with no custom identifier and retries disabled, the
    resolved identifier is [<itTitle>-snap], where [itTitle] is the second
    segment of the test name split on ["..."] (["undefined"] when there is
    none). It depends on nothing else (not the invocation counter, the
    describe prefix or the test path), and the ledger is left as is. *)
Theorem default_identifier_is_it_title L (timesCalled : gmap string Z) testPath' name st :
  createSnapshotIdentifier L timesCalled 0 testPath' name None st
  = Ok (JsString.index_str (JsString.split name "...") 1 ++ "-snap", timesCalled).
Proof. reflexivity. Qed.

(** ** Identifier resolution under retries *)

(** C4 (counterexample): with retries active ([retryTimes = 2]) and the
    literal custom identifier ["same"], two attempts both resolve to
    ["same"] without throwing; nothing checks that the identifier differs
    per attempt (the ledger counts the attempts of ["same"] instead). *)
Lemma C4_repeated_identifier_counterexample :
  let st := mkRunState 0 0 0 0 (<["D...it" := 1%Z]> ∅) UpdateNew in
  createSnapshotIdentifier sample_libs ∅ 2 "tests/img.test.js" "D...it" (Some (CIString "same")) st
    = Ok ("same", <["same" := 1%Z]> ∅) /\
  createSnapshotIdentifier sample_libs (<["same" := 1%Z]> ∅) 2 "tests/img.test.js" "D...it"
    (Some (CIString "same")) st
    = Ok ("same", <["same" := 2%Z]> ∅).
Proof. split; vm_compute; reflexivity. Qed.

(** C4 (amended): with retries active ([retryTimes <> 0]), resolution throws
    the configuration error exactly when no custom identifier is supplied
    (absent or [""]) or a custom identifier function returns [""]; otherwise
    it succeeds, whether or not the identifier was used by an earlier
    attempt, and adds one to that identifier's ledger entry. The matcher
    then throws before any comparison runs (no effect at all). With
    [retryTimes = 0], a function returning [""] falls back to the default
    identifier without error. *)
Theorem retry_identifier_resolution L (ledger : gmap string Z) (retryTimes : Z) testPath' name c st :
  let counter := counters st !! name in
  let dflt := kebabCase L (path_basename L testPath' ++ "-" ++ name ++ "-" ++ counter_str counter) in
  let args := mkIdentifierArgs testPath' name counter dflt in
  let res := createSnapshotIdentifier L ledger retryTimes testPath' name c st in
  (retryTimes <> 0%Z ->
     (res = Throw retry_error <->
        (custom_truthy c = false \/ exists f, c = Some (CIFunction f) /\ f args = "")) /\
     (forall id tc', res = Ok (id, tc') -> tc' = <[id := (default 0 (ledger !! id) + 1)%Z]> ledger)) /\
  (retryTimes = 0%Z -> forall f, c = Some (CIFunction f) -> f args = "" -> res = Ok (dflt, ledger)) /\
  (forall E fsm G lvl prompts common call ctx received st0 proc e,
     isNot ctx = false -> timesCalled proc = ledger -> retryTimes_of G = retryTimes ->
     testPath ctx = testPath' -> currentTestName ctx = name ->
     customSnapshotIdentifier (resolved_options common call) = c ->
     record_invocation G st0 name = st -> res = Throw e ->
     toMatchImageSnapshot L E fsm G lvl prompts common ctx received call st0 proc = mkRun (Throw e) st proc []).
Proof.
  intros counter dflt args res. subst res. split.
  - intros Hr. assert (Hb : (retryTimes =? 0)%Z = false) by (apply Z.eqb_neq; exact Hr).
    unfold createSnapshotIdentifier. fold counter dflt args. rewrite Hb. simpl.
    destruct c as [[s | f] |]; simpl.
    + destruct (String.eqb s "") eqn:Hs; simpl.
      * split; [split; auto |].
        intros id tc' H. discriminate H.
      * split; [split; [discriminate | intros [H | (f & H & _)]; discriminate H] |].
        intros id tc' H. injection H as <- <-. reflexivity.
    + destruct (String.eqb (f args) "") eqn:Hf; simpl.
      * apply String.eqb_eq in Hf.
        split; [split; eauto |]. intros id tc' H. discriminate H.
      * split.
        { split; [discriminate |]. intros [H | (g & Hg & Hga)]; [discriminate H |].
          injection Hg as ->. rewrite Hga in Hf. discriminate Hf. }
        intros id tc' H. injection H as <- <-. reflexivity.
    + split; [split; auto |]. intros id tc' H. discriminate H.
  - split.
    + intros -> f -> Hf. unfold createSnapshotIdentifier. fold counter dflt args.
      rewrite Hf. reflexivity.
    + intros E fsm G lvl prompts common call ctx received st0 proc e Hn Htc Hrt Htp Hname Hc Hst Hres.
      unfold toMatchImageSnapshot. rewrite Hn. fold (resolved_options common call).
      rewrite Htc, Hrt, Htp, Hname, Hc, Hst, Hres. reflexivity.
Qed.


(** ** Strings *)

Lemma string_app_nil_r (a : string) : a ++ "" = a.
Proof. induction a as [|x a IH]; [reflexivity |]. exact (f_equal (String x) IH). Qed.

Lemma prefix_app (sub s : string) :
  String.prefix sub s = true -> exists post, s = sub ++ post.
Proof.
  revert s. induction sub as [|x sub IH]; intros s H.
  - exists s. reflexivity.
  - destruct s as [|y s]; [discriminate H |]. simpl in H.
    destruct (ascii_dec x y) as [<- |]; [| discriminate H].
    destruct (IH s H) as [post ->]. exists post. reflexivity.
Qed.

Lemma includes_has_substring (s sub : string) :
  includes s sub = true -> has_substring s sub.
Proof.
  induction s as [|c s IH]; intros H; simpl in H.
  - apply orb_true_iff in H as [H | H]; [| discriminate H].
    destruct (prefix_app sub "" H) as [post Hp]. exists "", post. exact Hp.
  - apply orb_true_iff in H as [H | H].
    + destruct (prefix_app sub (String c s) H) as [post Hp]. exists "", post. exact Hp.
    + destruct (IH H) as (pre & post & ->). exists (String c pre), post. reflexivity.
Qed.

(** A text with no escape sequence and no line break keeps its characters
    under a chalk style: it is only put between the opening and closing codes. *)
Lemma applyStyle_plain (level : Z) (chain : list Chalk.style) (s : string) :
  JsString.contains s JsString.ESC = false -> JsString.contains s JsString.LF = false ->
  has_substring (Chalk.applyStyle level chain s) s.
Proof.
  intros He Hl. unfold Chalk.applyStyle.
  destruct (_ || _).
  - exists "", "". simpl. now rewrite string_app_nil_r.
  - rewrite He, Hl. exists (Chalk.openAll chain), (Chalk.closeAll chain). reflexivity.
Qed.

(** ** The state after recording the invocation *)

Lemma record_invocation_fields (G : Globals) (st : RunState) (name : string) :
  let st' := record_invocation G st name in
  matched st' = matched st /\ added st' = added st /\ updated st' = updated st /\
  unmatched st' = unmatched st /\ updateSnapshot st' = updateSnapshot st /\
  counters st' = <[name := (default 0 (counters st !! name) + 1)%Z]> (counters st).
Proof.
  unfold record_invocation, updateSnapshotState.
  destruct (UNSTABLE_SKIP_REPORTING G); simpl; auto 6.
Qed.

(** ** The interactive review workflow *)

(** C5: with Node's [fs] module the review workflow (notification, the
    view prompt and the update prompt) is never entered: the guard of
    line 248 calls [fs.syncExists], which Node's [fs] does not define, so
    the call throws a [TypeError] right after the comparison. Hence the
    workflow is entered only after a failed comparison with a received
    file present, and never after a passing comparison, for every input
    (vacuously so). The guard itself tests only that the received file
    exists, not that the comparison failed. *)
Theorem review_workflow_never_entered L E G lvl prompts common ctx received call st proc :
  workflow_entered (toMatchImageSnapshot L E node_fs G lvl prompts common ctx received call st proc) = false.
Proof.
  unfold toMatchImageSnapshot. destruct (isNot ctx); [reflexivity |].
  repeat (case_match; simpl); reflexivity.
Qed.

(** With Node's [fs] module, every call that runs the image comparison
    rejects with [TypeError: fs.syncExists is not a function] (line 248)
    right after it: the trace ends with the comparison, so no prompt, no
    notification and no rename follow; the run state is the one after the
    invocation was recorded, with no outcome counted; and the files are
    exactly those the comparison engine left. *)
Theorem node_fs_comparison_rejects L E G lvl prompts common ctx received call st proc :
  let r := toMatchImageSnapshot L E node_fs G lvl prompts common ctx received call st proc in
  comparison_ran r = true ->
  run_outcome r = Throw "TypeError: fs.syncExists is not a function" /\
  (exists p b, run_trace r = [ETouch p; ECompare b]) /\
  run_state r = record_invocation G st (currentTestName ctx) /\
  exists args, files (run_proc r) =
    snd ((if runInProcess (resolved_options common call) then diffImageToSnapshot E else runDiffImageToSnapshot E)
           args (files proc)).
Proof.
  intros r. subst r. unfold toMatchImageSnapshot. destruct (isNot ctx); [discriminate |]. cbv zeta.
  destruct (createSnapshotIdentifier _ _ _ _ _ _ _) as [[sid ledger] | e]; [| discriminate].
  cbv beta iota. cbn [files].
  destruct (_ && _); [discriminate |].
  match goal with
  | |- context [(if runInProcess ?o then ?f else ?g) ?a ?fs] =>
      destruct ((if runInProcess o then f else g) a fs) as [res fs1] eqn:He;
      intros _; cbn [fs_syncExists node_fs run_outcome run_trace run_state run_proc files];
      split; [reflexivity |]; split; [do 2 eexists; reflexivity |]; split; [reflexivity |];
      exists a; rewrite He; reflexivity
  end.
Qed.

Lemma node_fs_comparison_rejects_witness :
  comparison_ran update_confirmed_run = true /\
  run_outcome update_confirmed_run = Throw "TypeError: fs.syncExists is not a function" /\
  (exists p b, run_trace update_confirmed_run = [ETouch p; ECompare b]) /\
  run_state update_confirmed_run = record_invocation reporting (sample_state UpdateNew) (currentTestName sample_ctx) /\
  exists args, files (run_proc update_confirmed_run) =
    snd ((if runInProcess (resolved_options no_options no_options)
          then diffImageToSnapshot (engine_of failing_result) else runDiffImageToSnapshot (engine_of failing_result))
           args (files (mkProc ∅ sample_files))).
Proof.
  assert (Hran : comparison_ran update_confirmed_run = true) by (vm_compute; reflexivity).
  split; [exact Hran |].
  exact (node_fs_comparison_rejects sample_libs (engine_of failing_result) reporting 1 confirm_prompts
           no_options sample_ctx "received-bytes" no_options (sample_state UpdateNew) (mkProc ∅ sample_files) Hran).
Defined.

(** ** A missing baseline in update mode [none] *)

Lemma not_written_message_text (chalk : Z) (env : Env) :
  has_substring (not_written_message chalk env) "not written" /\
  has_substring (not_written_message chalk env) "continuous integration".
Proof.
  unfold not_written_message. split.
  - apply has_substring_app_r, has_substring_app_l.
    unfold Chalk.chalk_bold_red. apply applyStyle_plain; vm_compute; reflexivity.
  - apply has_substring_app_r, has_substring_app_r, includes_has_substring.
    vm_compute. reflexivity.
Qed.

(** C7 (counterexample): in update mode [none] with no baseline, the
    verdict is [{pass: false}] but the run state changes: the invocation
    counter of ["D...it"] goes from absent to 1. *)
Lemma C7_state_changes_counterexample :
  let st := sample_state UpdateNone in
  let r := toMatchImageSnapshot sample_libs (engine_of failing_result) node_fs reporting 1
             timeout_prompts no_options sample_ctx "img" no_options st (mkProc ∅ ∅) in
  match run_outcome r with Ok v => pass v | Throw _ => true end = false /\
  counters st !! "D...it" = None /\ counters (run_state r) !! "D...it" = Some 1%Z.
Proof. repeat split; vm_compute; reflexivity. Qed.

(** C7 (amended): when the update mode is [none] and no baseline file
    exists for the resolved identifier, the matcher returns (does not
    throw) a verdict with [pass = false], whose message contains
    ["not written"] and ["continuous integration"] whatever the
    environment; [matched], [added], [updated] and [unmatched] are left
    as they were, but the per-test invocation counter of the test is
    incremented (line 197, before the check). *)
Theorem missing_baseline_verdict L E fsm G lvl prompts common ctx received call st proc id l :
  isNot ctx = false -> updateSnapshot st = UpdateNone ->
  createSnapshotIdentifier L (timesCalled proc) (retryTimes_of G) (testPath ctx) (currentTestName ctx)
    (customSnapshotIdentifier (resolved_options common call))
    (record_invocation G st (currentTestName ctx)) = Ok (id, l) ->
  existsSync (files proc) (baseline_path L (resolved_options common call) ctx id) = false ->
  let r := toMatchImageSnapshot L E fsm G lvl prompts common ctx received call st proc in
  (exists v, run_outcome r = Ok v /\ pass v = false /\
     forall env, has_substring (message v env) "not written" /\
                 has_substring (message v env) "continuous integration") /\
  matched (run_state r) = matched st /\ added (run_state r) = added st /\
  updated (run_state r) = updated st /\ unmatched (run_state r) = unmatched st /\
  counters (run_state r) =
    <[currentTestName ctx := (default 0 (counters st !! currentTestName ctx) + 1)%Z]> (counters st).
Proof.
  intros Hn Hu Hres Hf r. subst r.
  destruct (record_invocation_fields G st (currentTestName ctx)) as (Hm & Ha & Hup & Hun & Hmode & Hc).
  unfold toMatchImageSnapshot. cbv zeta. rewrite Hn, Hres, Hmode, Hu. cbn [files]. rewrite Hf.
  simpl. split; [| auto 6].
  eexists. split; [reflexivity |]. split; [reflexivity |].
  intros env. apply not_written_message_text.
Qed.

Lemma missing_baseline_verdict_witness :
  isNot sample_ctx = false /\ updateSnapshot (sample_state UpdateNone) = UpdateNone /\
  createSnapshotIdentifier sample_libs ∅ (retryTimes_of reporting) (testPath sample_ctx) (currentTestName sample_ctx)
    (customSnapshotIdentifier (resolved_options no_options no_options))
    (record_invocation reporting (sample_state UpdateNone) (currentTestName sample_ctx)) = Ok ("it-snap", ∅) /\
  existsSync ∅ (baseline_path sample_libs (resolved_options no_options no_options) sample_ctx "it-snap") = false /\
  let r := toMatchImageSnapshot sample_libs (engine_of failing_result) node_fs reporting 1 timeout_prompts
             no_options sample_ctx "img" no_options (sample_state UpdateNone) (mkProc ∅ ∅) in
  (exists v, run_outcome r = Ok v /\ pass v = false /\
     forall env, has_substring (message v env) "not written" /\
                 has_substring (message v env) "continuous integration") /\
  matched (run_state r) = 0%Z /\ added (run_state r) = 0%Z /\
  updated (run_state r) = 0%Z /\ unmatched (run_state r) = 0%Z /\
  counters (run_state r) =
    <[currentTestName sample_ctx := (default 0 ((∅ : gmap string Z) !! currentTestName sample_ctx) + 1)%Z]> ∅.
Proof.
  split; [reflexivity |]. split; [reflexivity |].
  split; [vm_compute; reflexivity |]. split; [vm_compute; reflexivity |].
  apply (missing_baseline_verdict sample_libs (engine_of failing_result) node_fs reporting 1 timeout_prompts
           no_options sample_ctx "img" no_options (sample_state UpdateNone) (mkProc ∅ ∅) "it-snap" ∅);
    [reflexivity | reflexivity | vm_compute; reflexivity | vm_compute; reflexivity].
Defined.

(** ** The failure message *)

Lemma checkResult_failing_verdict L G tc r st rt id ch d1 d2 a :
  res_updated r = false -> res_added r = false -> res_pass r = false ->
  fst (checkResult L G tc r st rt id ch d1 d2 a)
  = mkVerdict false (failure_message L r ch d1 d2 a (diffRatio r * 100)%float).
Proof. intros Hu Ha Hp. unfold checkResult. rewrite Hu, Ha, Hp. reflexivity. Qed.

(** Every message starts with the failure text and the pointer to the diff
    image; only what follows depends on the environment and the dump
    options. *)
Lemma failure_message_prefix L r ch d1 d2 a dp env :
  let ts := JsNumber.to_string in
  let dims := imageDimensions r in
  exists rest,
    failure_message L r ch d1 d2 a dp env =
      ((if diffSize r && negb a then
          "Expected image to be the same size as the snapshot (" ++ ts (baselineWidth dims) ++ "x"
            ++ ts (baselineHeight dims) ++ "), but was different (" ++ ts (receivedWidth dims) ++ "x"
            ++ ts (receivedHeight dims) ++ ")." ++ JsString.LF
        else
          "Expected image to match or be a close match to snapshot but was " ++ ts dp
            ++ "% different from snapshot (" ++ ts (diffPixelCount r) ++ " differing pixels)." ++ JsString.LF)
       ++ Chalk.chalk_bold_red ch "See diff for details:" ++ " " ++ Chalk.chalk_red ch (diffOutputPath r))
      ++ rest.
Proof.
  intros ts dims. unfold failure_message. cbv zeta.
  destruct (d2 && _); [eexists; reflexivity |].
  destruct (d1 || d2); [eexists; reflexivity |].
  exists "". symmetry. apply string_app_nil_r.
Qed.

(** C8: for a failing comparison the verdict fails, and its message (in
    every environment) starts with the dimension-mismatch text quoting
    both width x height pairs when [diffSize] is set and
    [allowSizeMismatch] is not, and otherwise with the percentage text
    ([diffRatio * 100], printed as JavaScript prints numbers) and the
    differing-pixel count; both are followed by the pointer to
    [diffOutputPath]. For [diffRatio = 0.023] and [diffPixelCount = 45]
    the message of every such result contains ["2.3% different"] and
    ["45 differing pixels"]. *)
Theorem failure_message_text L G tc r st rt id ch d1 d2 a :
  res_updated r = false -> res_added r = false -> res_pass r = false ->
  let v := fst (checkResult L G tc r st rt id ch d1 d2 a) in
  let ts := JsNumber.to_string in
  let dims := imageDimensions r in
  pass v = false /\
  (forall env, exists rest,
    message v env =
      ((if diffSize r && negb a then
          "Expected image to be the same size as the snapshot (" ++ ts (baselineWidth dims) ++ "x"
            ++ ts (baselineHeight dims) ++ "), but was different (" ++ ts (receivedWidth dims) ++ "x"
            ++ ts (receivedHeight dims) ++ ")." ++ JsString.LF
        else
          "Expected image to match or be a close match to snapshot but was " ++ ts (diffRatio r * 100)%float
            ++ "% different from snapshot (" ++ ts (diffPixelCount r) ++ " differing pixels)." ++ JsString.LF)
       ++ Chalk.chalk_bold_red ch "See diff for details:" ++ " " ++ Chalk.chalk_red ch (diffOutputPath r))
      ++ rest) /\
  (forall r', res_updated r' = false -> res_added r' = false -> res_pass r' = false ->
   diffRatio r' = 0.023%float -> diffPixelCount r' = 45%float -> diffSize r' = false ->
   forall env, let m := message (fst (checkResult L G tc r' st rt id ch d1 d2 a)) env in
   has_substring m "2.3% different" /\ has_substring m "45 differing pixels").
Proof.
  intros Hu Ha Hp v ts dims. subst v.
  rewrite (checkResult_failing_verdict L G tc r st rt id ch d1 d2 a Hu Ha Hp).
  split; [reflexivity |]. split; [intros env; apply failure_message_prefix |].
  intros r' Hu' Ha' Hp' Hd Hc Hs env m. subst m.
  rewrite (checkResult_failing_verdict L G tc r' st rt id ch d1 d2 a Hu' Ha' Hp').
  destruct (failure_message_prefix L r' ch d1 d2 a (diffRatio r' * 100)%float env) as [rest Hm].
  cbn [message]. rewrite Hm, Hs, Hd, Hc. simpl andb.
  split; apply has_substring_app_l, has_substring_app_l, includes_has_substring; vm_compute; reflexivity.
Qed.

Lemma failure_message_text_witness :
  res_updated failing_result = false /\ res_added failing_result = false /\ res_pass failing_result = false /\
  let v := fst (checkResult sample_libs reporting ∅ failing_result (sample_state UpdateNew) 0 "it-snap" 0
                  false false false) in
  let ts := JsNumber.to_string in
  let dims := imageDimensions failing_result in
  pass v = false /\
  (forall env, exists rest,
    message v env =
      ((if diffSize failing_result && negb false then
          "Expected image to be the same size as the snapshot (" ++ ts (baselineWidth dims) ++ "x"
            ++ ts (baselineHeight dims) ++ "), but was different (" ++ ts (receivedWidth dims) ++ "x"
            ++ ts (receivedHeight dims) ++ ")." ++ JsString.LF
        else
          "Expected image to match or be a close match to snapshot but was "
            ++ ts (diffRatio failing_result * 100)%float
            ++ "% different from snapshot (" ++ ts (diffPixelCount failing_result) ++ " differing pixels)."
            ++ JsString.LF)
       ++ Chalk.chalk_bold_red 0 "See diff for details:" ++ " " ++ Chalk.chalk_red 0 (diffOutputPath failing_result))
      ++ rest) /\
  (forall r', res_updated r' = false -> res_added r' = false -> res_pass r' = false ->
   diffRatio r' = 0.023%float -> diffPixelCount r' = 45%float -> diffSize r' = false ->
   forall env, let m := message (fst (checkResult sample_libs reporting ∅ r' (sample_state UpdateNew) 0 "it-snap" 0
                                        false false false)) env in
   has_substring m "2.3% different" /\ has_substring m "45 differing pixels").
Proof.
  split; [reflexivity |]. split; [reflexivity |]. split; [reflexivity |].
  apply (failure_message_text sample_libs reporting ∅ failing_result (sample_state UpdateNew) 0 "it-snap" 0
           false false false); reflexivity.
Defined.

(** ** The message closure and the environment *)

(** C9 (counterexample): a failing verdict with [dumpInlineDiffToConsole]
    set renders one string with an empty [process.env] and another once
    [ENABLE_INLINE_DIFF] is set: the closure is not a function of the
    captured result state alone. *)
Lemma C9_env_dependent_message_counterexample :
  let v := fst (checkResult sample_libs reporting ∅ failing_result (sample_state UpdateNew) 0 "it-snap" 0
                  false true false) in
  String.eqb (message v ∅) (message v (<["ENABLE_INLINE_DIFF" := "1"]> ∅)) = false.
Proof. vm_compute. reflexivity. Qed.

(** C9 (amended): the message closure of any verdict is a function of the
    captured result state and of two readings of [process.env] made when
    it is called: whether [TERM_PROGRAM] names a supported terminal, and
    whether [ENABLE_INLINE_DIFF] is set. Calls made in environments that
    agree on these yield identical strings, and when
    [dumpInlineDiffToConsole] is unset every call yields the same string.
    The closure only reads the environment (it is a function [Env ->
    string]): calling it changes no state. *)
Theorem message_depends_on_inline_env L G tc r st rt id ch d1 d2 a :
  let v := fst (checkResult L G tc r st rt id ch d1 d2 a) in
  (forall env1 env2,
     (inline_term env1 || inline_enabled env1) = (inline_term env2 || inline_enabled env2) ->
     message v env1 = message v env2) /\
  (d2 = false -> forall env1 env2, message v env1 = message v env2).
Proof.
  intros v. subst v. unfold checkResult.
  destruct (res_updated r); [split; reflexivity |].
  destruct (res_added r); [split; reflexivity |].
  destruct (res_pass r); [split; reflexivity |].
  cbn [fst message]. split.
  - intros env1 env2 H. unfold failure_message. cbv zeta. rewrite H. reflexivity.
  - intros -> env1 env2. reflexivity.
Qed.

(** ** The retry ledger *)

Lemma createSnapshotIdentifier_ledger L ledger rt tp name c st id l :
  createSnapshotIdentifier L ledger rt tp name c st = Ok (id, l) ->
  l = if (rt =? 0)%Z then ledger else <[id := (default 0 (ledger !! id) + 1)%Z]> ledger.
Proof.
  unfold createSnapshotIdentifier. destruct (rt =? 0)%Z; simpl;
    repeat case_match; intros Hok; try discriminate Hok; injection Hok as <- <-; reflexivity.
Qed.

(** Resolution reads the snapshot state only through its invocation counters. *)
Lemma createSnapshotIdentifier_counters L ledger rt tp name c st1 st2 :
  counters st1 = counters st2 ->
  createSnapshotIdentifier L ledger rt tp name c st1 = createSnapshotIdentifier L ledger rt tp name c st2.
Proof. intros H. unfold createSnapshotIdentifier. now rewrite H. Qed.

(** The ledger after a call: the one resolution returned, if it returned. *)
Lemma toMatchImageSnapshot_ledger L E fsm G lvl prompts common ctx received call st proc :
  timesCalled (run_proc (toMatchImageSnapshot L E fsm G lvl prompts common ctx received call st proc)) =
  if isNot ctx then timesCalled proc
  else match createSnapshotIdentifier L (timesCalled proc) (retryTimes_of G) (testPath ctx)
               (currentTestName ctx) (customSnapshotIdentifier (resolved_options common call))
               (record_invocation G st (currentTestName ctx)) with
       | Ok (_, l) => l
       | Throw _ => timesCalled proc
       end.
Proof.
  unfold toMatchImageSnapshot. destruct (isNot ctx); [reflexivity |]. cbv zeta.
  destruct (createSnapshotIdentifier _ _ _ _ _ _ _) as [[id l] | e]; [| reflexivity].
  repeat (case_match; simpl); reflexivity.
Qed.

(** C10: the retry ledger [timesCalled] is threaded through every call of
    every matcher (whatever [common] configuration produced it); no call
    removes or decreases an entry. With retries disabled a call leaves it
    as it is; with retries active, a call whose resolution returns [id]
    adds one to the entry of [id]. The suppress-reporting flag plays no
    part: the ledger after a call is the same with the flag set or not. *)
Theorem retry_ledger_monotone L E fsm G lvl prompts common ctx received call st proc :
  let before := timesCalled proc in
  let after := timesCalled (run_proc (toMatchImageSnapshot L E fsm G lvl prompts common ctx received call st proc)) in
  (forall k n, before !! k = Some n -> exists m, after !! k = Some m /\ (n <= m)%Z) /\
  (retryTimes_of G = 0%Z -> after = before) /\
  (retryTimes_of G <> 0%Z -> isNot ctx = false -> forall id l,
     createSnapshotIdentifier L before (retryTimes_of G) (testPath ctx) (currentTestName ctx)
       (customSnapshotIdentifier (resolved_options common call))
       (record_invocation G st (currentTestName ctx)) = Ok (id, l) ->
     after = <[id := (default 0 (before !! id) + 1)%Z]> before) /\
  (forall b, timesCalled (run_proc (toMatchImageSnapshot L E fsm (mkGlobals b (RETRY_TIMES G)) lvl prompts
                                      common ctx received call st proc)) = after).
Proof.
  intros before after. subst before after.
  rewrite !toMatchImageSnapshot_ledger.
  assert (Hres : forall G',
    match createSnapshotIdentifier L (timesCalled proc) (retryTimes_of G') (testPath ctx) (currentTestName ctx)
            (customSnapshotIdentifier (resolved_options common call))
            (record_invocation G' st (currentTestName ctx)) with
    | Ok (_, l) => l | Throw _ => timesCalled proc end = timesCalled proc \/
    exists id, createSnapshotIdentifier L (timesCalled proc) (retryTimes_of G') (testPath ctx) (currentTestName ctx)
            (customSnapshotIdentifier (resolved_options common call))
            (record_invocation G' st (currentTestName ctx))
          = Ok (id, if (retryTimes_of G' =? 0)%Z then timesCalled proc
                    else <[id := (default 0 (timesCalled proc !! id) + 1)%Z]> (timesCalled proc))).
  { intros G'. destruct (createSnapshotIdentifier _ _ _ _ _ _ _) as [[id l] | e] eqn:Hc; [| left; reflexivity].
    right. exists id. rewrite (createSnapshotIdentifier_ledger _ _ _ _ _ _ _ _ _ Hc). reflexivity. }
  split; [| split; [| split]].
  - intros k n Hk. destruct (isNot ctx); [exists n; split; [exact Hk | lia] |].
    destruct (Hres G) as [-> | [id ->]]; [exists n; split; [exact Hk | lia] |].
    destruct (retryTimes_of G =? 0)%Z; [exists n; split; [exact Hk | lia] |].
    destruct (decide (id = k)) as [<- | Hne].
    + rewrite lookup_insert_eq, Hk. exists (n + 1)%Z. simpl. split; [reflexivity | lia].
    + rewrite lookup_insert_ne by exact Hne. exists n. split; [exact Hk | lia].
  - intros Hr. destruct (isNot ctx); [reflexivity |].
    destruct (Hres G) as [-> | [id ->]]; [reflexivity |]. rewrite Hr. reflexivity.
  - intros Hr Hn id l Hc. rewrite Hn, Hc.
    rewrite (createSnapshotIdentifier_ledger _ _ _ _ _ _ _ _ _ Hc).
    replace (retryTimes_of G =? 0)%Z with false by (symmetry; apply Z.eqb_neq; exact Hr). reflexivity.
  - intros b. rewrite toMatchImageSnapshot_ledger. destruct (isNot ctx); [reflexivity |].
    replace (retryTimes_of (mkGlobals b (RETRY_TIMES G))) with (retryTimes_of G) by reflexivity.
    rewrite (createSnapshotIdentifier_counters _ _ _ _ _ _ (record_invocation (mkGlobals b (RETRY_TIMES G)) st _)
               (record_invocation G st (currentTestName ctx))); [reflexivity |].
    destruct (record_invocation_fields (mkGlobals b (RETRY_TIMES G)) st (currentTestName ctx)) as (_ & _ & _ & _ & _ & ->).
    destruct (record_invocation_fields G st (currentTestName ctx)) as (_ & _ & _ & _ & _ & ->).
    reflexivity.
Qed.

(* ================================================================= *)
(** * Further properties of the matcher *)

(** ** [checkResult] records at most one outcome *)

(** The verdict of [checkResult] passes exactly when the result is updated,
    added or passing, and a passing verdict's message is empty in every
    environment. A call never touches the invocation counters or the update
    mode, and adds at most one to the total of [matched], [added],
    [updated] and [unmatched]; a passing verdict adds exactly one unless
    reporting is suppressed. *)
Theorem checkResult_records_one_outcome L G tc r st rt id ch d1 d2 a :
  let v := fst (checkResult L G tc r st rt id ch d1 d2 a) in
  let st' := snd (checkResult L G tc r st rt id ch d1 d2 a) in
  pass v = res_updated r || res_added r || res_pass r /\
  (pass v = true -> forall env, message v env = "") /\
  counters st' = counters st /\ updateSnapshot st' = updateSnapshot st /\
  (outcomes st' = outcomes st \/ outcomes st' = (outcomes st + 1)%Z) /\
  (UNSTABLE_SKIP_REPORTING G = false -> pass v = true -> outcomes st' = (outcomes st + 1)%Z).
Proof.
  intros v st'. subst v st'. unfold checkResult, updateSnapshotState, outcomes.
  destruct (UNSTABLE_SKIP_REPORTING G) eqn:Hs;
  destruct (res_updated r), (res_added r), (res_pass r); cbn [fst snd pass message orb];
    repeat split; try (intros; discriminate); try (intros; reflexivity); try (left; reflexivity);
    try (right; simpl; lia); try (intros _ _; simpl; lia).
  all: destruct (_ || _); simpl; auto; right; lia.
Qed.

(** ** The review block (lines 250-289) *)


(** A confirmed update moves the received image onto the baseline path
    [path.join(snapshotsDir, id + '.png')], leaving no received file
    behind, and hands [{ updated: true }] to [checkResult], which returns a
    passing verdict and (unless reporting is suppressed) adds one to
    [updated] and nothing to [unmatched]. *)
Theorem review_confirmed_update L prompts name id sdir rdir post ddir ch res fs0 contents viewAction :
  race_value (view_race prompts) = Ok viewAction ->
  update_race prompts = RaceAnswer true ->
  let recv := path_join L [rdir; id ++ post ++ ".png"] in
  let base := path_join L [sdir; id ++ ".png"] in
  fs0 !! recv = Some contents ->
  let out := review L prompts name id sdir rdir post ddir ch res fs0 in
  fst out = Ok (updated_result, <[base := contents]> (delete recv fs0)) /\
  In (ERename recv base) (snd out) /\
  (<[base := contents]> (delete recv fs0) : Files) !! base = Some contents /\
  (recv <> base -> (<[base := contents]> (delete recv fs0) : Files) !! recv = None) /\
  (forall G tc st rt d1 d2 a,
     let c := checkResult L G tc updated_result st rt id ch d1 d2 a in
     pass (fst c) = true /\
     (UNSTABLE_SKIP_REPORTING G = false ->
        updated (snd c) = (updated st + 1)%Z /\ unmatched (snd c) = unmatched st)).
Proof.
  intros Hv Hu recv base Hr out. subst out.
  unfold review. fold recv. rewrite Hv, Hu. simpl race_value. cbv zeta. fold base.
  unfold renameSync. rewrite Hr. cbn [fst snd].
  split; [reflexivity |]. split; [apply in_or_app; right; left; reflexivity |].
  split; [apply lookup_insert_eq |]. split.
  { intros Hne. rewrite lookup_insert_ne by (intros E; apply Hne; symmetry; exact E).
    apply lookup_delete_eq. }
  intros G tc st rt d1 d2 a. unfold checkResult, updateSnapshotState. simpl.
  split; [reflexivity |]. intros Hs. rewrite Hs. simpl. split; reflexivity.
Qed.

Lemma review_confirmed_update_witness :
  race_value (view_race confirm_prompts) = Ok false /\
  update_race confirm_prompts = RaceAnswer true /\
  let recv := path_join sample_libs ["tests/__received_snapshots__/D"; "it-snap" ++ "-received" ++ ".png"] in
  let base := path_join sample_libs ["tests/__image_snapshots__/D"; "it-snap" ++ ".png"] in
  (<[recv := "received-bytes"]> sample_files : Files) !! recv = Some "received-bytes" /\
  let out := review sample_libs confirm_prompts "D...it" "it-snap" "tests/__image_snapshots__/D"
               "tests/__received_snapshots__/D" "-received" "tests/__diff_output/D" 0 failing_result
               (<[recv := "received-bytes"]> sample_files) in
  fst out = Ok (updated_result, <[base := "received-bytes"]> (delete recv (<[recv := "received-bytes"]> sample_files))) /\
  In (ERename recv base) (snd out) /\
  (<[base := "received-bytes"]> (delete recv (<[recv := "received-bytes"]> sample_files)) : Files) !! base
    = Some "received-bytes" /\
  (recv <> base ->
     (<[base := "received-bytes"]> (delete recv (<[recv := "received-bytes"]> sample_files)) : Files) !! recv = None) /\
  (forall G tc st rt d1 d2 a,
     let c := checkResult sample_libs G tc updated_result st rt "it-snap" 0 d1 d2 a in
     pass (fst c) = true /\
     (UNSTABLE_SKIP_REPORTING G = false ->
        updated (snd c) = (updated st + 1)%Z /\ unmatched (snd c) = unmatched st)).
Proof.
  split; [reflexivity |]. split; [reflexivity |]. split; [vm_compute; reflexivity |].
  apply (review_confirmed_update sample_libs confirm_prompts "D...it" "it-snap" "tests/__image_snapshots__/D"
           "tests/__received_snapshots__/D" "-received" "tests/__diff_output/D" 0 failing_result
           (<[path_join sample_libs ["tests/__received_snapshots__/D"; "it-snap" ++ "-received" ++ ".png"]
              := "received-bytes"]> sample_files) "received-bytes" false);
    [reflexivity | reflexivity | vm_compute; reflexivity].
Defined.

(** A declined or timed-out update prompt leaves the comparison result and
    the files as they were: the update prompt is stopped and nothing is
    renamed. *)
Theorem review_declined_keeps_result L prompts name id sdir rdir post ddir ch res fs0 viewAction :
  race_value (view_race prompts) = Ok viewAction ->
  race_value (update_race prompts) = Ok false ->
  let out := review L prompts name id sdir rdir post ddir ch res fs0 in
  fst out = Ok (res, fs0) /\
  last (snd out) = Some (EPromptStop "Update Question") /\
  (forall src dst, ~ In (ERename src dst) (snd out)).
Proof.
  intros Hv Hu out. subst out. unfold review. rewrite Hv.
  destruct (update_race prompts) as [[|] | | e]; simpl in Hu; try discriminate Hu; cbn [fst snd];
    (split; [reflexivity |]); (split; [destruct viewAction; reflexivity |]);
    intros src dst Hin; destruct viewAction; simpl in Hin; intuition discriminate.
Qed.

Lemma review_declined_keeps_result_witness :
  race_value (view_race timeout_prompts) = Ok false /\
  race_value (update_race timeout_prompts) = Ok false /\
  let out := review sample_libs timeout_prompts "D...it" "it-snap" "tests/__image_snapshots__/D"
               "tests/__received_snapshots__/D" "-received" "tests/__diff_output/D" 0 failing_result sample_files in
  fst out = Ok (failing_result, sample_files) /\
  last (snd out) = Some (EPromptStop "Update Question") /\
  (forall src dst, ~ In (ERename src dst) (snd out)).
Proof.
  split; [reflexivity |]. split; [reflexivity |].
  apply (review_declined_keeps_result sample_libs timeout_prompts "D...it" "it-snap" "tests/__image_snapshots__/D"
           "tests/__received_snapshots__/D" "-received" "tests/__diff_output/D" 0 failing_result sample_files false);
    reflexivity.
Defined.

(** The review block fails by throwing: a prompt that rejects passes its
    error on, and a confirmed update whose received file is missing throws
    the [ENOENT] error of [fs.renameSync]; in both cases nothing is
    renamed. *)
Theorem review_errors L prompts name id sdir rdir post ddir ch res fs0 :
  let out := review L prompts name id sdir rdir post ddir ch res fs0 in
  let recv := path_join L [rdir; id ++ post ++ ".png"] in
  let base := path_join L [sdir; id ++ ".png"] in
  (forall e, view_race prompts = RaceRejected e -> fst out = Throw e) /\
  (forall e b, race_value (view_race prompts) = Ok b -> update_race prompts = RaceRejected e -> fst out = Throw e) /\
  (forall b, race_value (view_race prompts) = Ok b -> update_race prompts = RaceAnswer true -> fs0 !! recv = None ->
     fst out = Throw ("ENOENT: no such file or directory, rename '" ++ recv ++ "' -> '" ++ base ++ "'")) /\
  (forall src dst, In (ERename src dst) (snd out) -> fs0 !! recv <> None).
Proof.
  intros out recv base. subst out. unfold review. fold recv. cbv zeta. fold base.
  split; [intros e -> ; reflexivity |].
  split; [intros e b -> -> ; reflexivity |].
  split; [intros b -> -> Hr; unfold renameSync; rewrite Hr; reflexivity |].
  intros src dst Hin.
  destruct (race_value (view_race prompts)) as [v | e]; [| simpl in Hin; intuition discriminate].
  destruct (race_value (update_race prompts)) as [[|] | e].
  - unfold renameSync in Hin. destruct (fs0 !! recv) eqn:Hr; [discriminate |].
    destruct v; simpl in Hin; intuition discriminate.
  - destruct v; simpl in Hin; intuition discriminate.
  - destruct v; simpl in Hin; intuition discriminate.
Qed.



(** ** When the comparison runs *)

(** The image comparison runs exactly when the call is not a [.not] call,
    identifier resolution succeeds, and either the update mode is not
    [none] or the baseline file exists. A call that does not run it leaves
    the file system untouched. *)
Theorem comparison_runs_iff L E fsm G lvl prompts common ctx received call st proc :
  let r := toMatchImageSnapshot L E fsm G lvl prompts common ctx received call st proc in
  let o := resolved_options common call in
  (comparison_ran r = true <->
   isNot ctx = false /\
   exists id l,
     createSnapshotIdentifier L (timesCalled proc) (retryTimes_of G) (testPath ctx) (currentTestName ctx)
       (customSnapshotIdentifier o) (record_invocation G st (currentTestName ctx)) = Ok (id, l) /\
     (updateSnapshot st <> UpdateNone \/ existsSync (files proc) (baseline_path L o ctx id) = true)) /\
  (comparison_ran r = false -> files (run_proc r) = files proc).
Proof.
  intros r o. subst r o.
  destruct (record_invocation_fields G st (currentTestName ctx)) as (_ & _ & _ & _ & Hmode & _).
  unfold toMatchImageSnapshot. destruct (isNot ctx).
  { split; [split; [discriminate | intros [H _]; discriminate H] | reflexivity]. }
  cbv zeta. rewrite Hmode.
  destruct (createSnapshotIdentifier _ _ _ _ _ _ _) as [[id l] | e].
  2: { split; [split; [discriminate | intros (_ & id & l & H & _); discriminate H] | reflexivity]. }
  cbn [files].
  destruct (updateSnapshot st) eqn:Hm; destruct (existsSync (files proc) _) eqn:Hx; simpl andb; cbv iota;
    try (split; [split; [discriminate | intros (_ & id' & l' & H & [Hn | Hn]);
                           injection H as <- <-; [congruence | rewrite Hx in Hn; discriminate Hn]] |
                 reflexivity]).
  all: match goal with |- (comparison_ran ?R = true <-> _) /\ _ =>
         assert (Hran : comparison_ran R = true)
           by (unfold comparison_ran; repeat (case_match; simpl); reflexivity) end.
  all: rewrite Hran; split; [split; [intros _; split; [reflexivity |]; exists id, l; split; [reflexivity |];
                                     first [left; discriminate | right; exact Hx] | reflexivity] |
                             discriminate].
Qed.

(** ** The counter seen by a custom identifier function *)

Lemma createSnapshotIdentifier_function_no_retries L tc tp name f st (n : Z) :
  let dflt := kebabCase L (path_basename L tp ++ "-" ++ name ++ "-" ++ pretty n) in
  let s := f (mkIdentifierArgs tp name (Some n) dflt) in
  counters st !! name = Some n ->
  createSnapshotIdentifier L tc 0 tp name (Some (CIFunction f)) st
  = Ok (if String.eqb s "" then dflt else s, tc).
Proof.
  intros dflt s Hc. unfold createSnapshotIdentifier. rewrite Hc. simpl counter_str.
  fold dflt. fold s. reflexivity.
Qed.

(** With retries disabled, a custom identifier function is called with
    [counter] equal to the number of earlier calls of the matcher in the
    same test plus one (line 197 counts the call first) and with the
    default identifier built from that counter; the baseline file the
    call marks as touched is named after the function's result, or after
    the default identifier when the function returns [""]. *)
Theorem custom_identifier_counter L E fsm G lvl prompts common ctx received call st proc f :
  isNot ctx = false -> retryTimes_of G = 0%Z ->
  customSnapshotIdentifier (resolved_options common call) = Some (CIFunction f) ->
  let name := currentTestName ctx in
  let n := (default 0 (counters st !! name) + 1)%Z in
  let dflt := kebabCase L (path_basename L (testPath ctx) ++ "-" ++ name ++ "-" ++ pretty n) in
  let s := f (mkIdentifierArgs (testPath ctx) name (Some n) dflt) in
  head (run_trace (toMatchImageSnapshot L E fsm G lvl prompts common ctx received call st proc))
  = Some (ETouch (baseline_path L (resolved_options common call) ctx (if String.eqb s "" then dflt else s))).
Proof.
  intros Hn Hr Hc name n dflt s.
  destruct (record_invocation_fields G st name) as (_ & _ & _ & _ & _ & Hcnt).
  assert (Hres := createSnapshotIdentifier_function_no_retries L (timesCalled proc) (testPath ctx) name f
                    (record_invocation G st name) n).
  cbv zeta in Hres. rewrite Hcnt, lookup_insert_eq in Hres.
  specialize (Hres eq_refl). fold dflt s in Hres.
  set (id := if String.eqb s "" then dflt else s) in *. clearbody id.
  unfold toMatchImageSnapshot. rewrite Hn. cbv zeta. rewrite Hr, Hc. fold name. rewrite Hres.
  repeat (case_match; simpl); reflexivity.
Qed.

(** A custom identifier function that echoes the counter it receives. *)
Definition counter_identifier (args : IdentifierArgs) : string := "shot-" ++ counter_str (ia_counter args).

Lemma custom_identifier_counter_witness :
  let common := mkGiven None (Some (CIFunction counter_identifier)) None None None None None None None None
                  None None None None None None None None None in
  let st := mkRunState 0 0 0 0 (<["D...it" := 2%Z]> ∅) UpdateNew in
  isNot sample_ctx = false /\ retryTimes_of reporting = 0%Z /\
  customSnapshotIdentifier (resolved_options common no_options) = Some (CIFunction counter_identifier) /\
  let name := currentTestName sample_ctx in
  let n := (default 0 (counters st !! name) + 1)%Z in
  let dflt := kebabCase sample_libs (path_basename sample_libs (testPath sample_ctx) ++ "-" ++ name ++ "-" ++ pretty n) in
  let s := counter_identifier (mkIdentifierArgs (testPath sample_ctx) name (Some n) dflt) in
  head (run_trace (toMatchImageSnapshot sample_libs (engine_of failing_result) node_fs reporting 1 timeout_prompts
                     common sample_ctx "img" no_options st (mkProc ∅ sample_files)))
  = Some (ETouch (baseline_path sample_libs (resolved_options common no_options) sample_ctx
                    (if String.eqb s "" then dflt else s))).
Proof.
  intros common st. split; [reflexivity |]. split; [reflexivity |]. split; [reflexivity |].
  apply (custom_identifier_counter sample_libs (engine_of failing_result) node_fs reporting 1 timeout_prompts
           common sample_ctx "img" no_options st (mkProc ∅ sample_files) counter_identifier); reflexivity.
Defined.

(** ** The inline diff image *)

Lemma prefix_app_self (a b : string) : String.prefix a (a ++ b) = true.
Proof.
  induction a as [|c a IH]; [destruct b; reflexivity |].
  simpl. destruct (ascii_dec c c) as [_ | Hne]; [exact IH | contradiction].
Qed.

Lemma substring_long (s : string) (m : nat) : (String.length s <= m)%nat -> substring 0 m s = s.
Proof.
  revert m. induction s as [|c s IH]; intros m Hm; destruct m; simpl in *; try reflexivity; try lia.
  rewrite IH by lia. reflexivity.
Qed.

Lemma substring_drop (a b : string) (m : nat) : substring (String.length a) m (a ++ b) = substring 0 m b.
Proof. induction a as [|c a IH]; [reflexivity |]. simpl. destruct m; exact IH. Qed.

Lemma length_app_string (a b : string) : String.length (a ++ b) = (String.length a + String.length b)%nat.
Proof. induction a as [|c a IH]; [reflexivity |]. simpl. now rewrite IH. Qed.

Lemma substring_after (a b : string) :
  substring (String.length a) (String.length (a ++ b)) (a ++ b) = b.
Proof. rewrite substring_drop. apply substring_long. rewrite length_app_string. lia. Qed.

(** [s.replace(pat, '')] removes a leading [pat]. *)
Lemma replace_first_leading (pat rest : string) :
  JsString.replace_first (pat ++ rest) pat "" = rest.
Proof.
  unfold JsString.replace_first.
  assert (Hi : String.index 0 pat (pat ++ rest) = Some O).
  { assert (Hp := prefix_app_self pat rest). revert Hp. generalize (pat ++ rest) as t.
    intros [|c t] Hp.
    - destruct pat; [reflexivity | discriminate Hp].
    - cbn [String.index]. rewrite Hp. reflexivity. }
  rewrite Hi. replace (substring 0 0 (pat ++ rest)) with "" by (destruct (pat ++ rest); reflexivity).
  exact (substring_after pat rest).
Qed.

(** With [dumpInlineDiffToConsole] set, in a terminal that supports inline
    images ([TERM_PROGRAM] is iTerm.app or WezTerm, or [ENABLE_INLINE_DIFF]
    is set), the message of a failing verdict ends with the terminal's
    inline-image sequence, named by the base64 of [diffOutputPath], whose
    payload is the image data with its ["data:image/png;base64,"] prefix
    removed. Elsewhere, with either dump option set, it ends with the full
    data URL to paste in a browser. *)
Theorem inline_diff_payload L r ch d1 a dp env :
  (forall payload,
     imgSrcString r = "data:image/png;base64," ++ payload ->
     (inline_term env || inline_enabled env) = true ->
     exists pre, failure_message L r ch d1 true a dp env =
       pre ++ JsString.LF ++ JsString.LF ++ JsString.TAB ++ JsString.ESC ++ "]1337;File=name="
           ++ buffer_base64 L (diffOutputPath r) ++ ";inline=1;width=40:" ++ payload
           ++ JsString.BEL ++ JsString.ESC ++ JsString.LF ++ JsString.LF) /\
  (forall d2, (d1 || d2) = true ->
     (d2 && (inline_term env || inline_enabled env)) = false ->
     exists pre, failure_message L r ch d1 d2 a dp env = pre ++ JsString.LF ++ " " ++ imgSrcString r).
Proof.
  split.
  - intros payload Hs Hi. unfold failure_message. cbv zeta. rewrite Hi. simpl andb. cbv iota.
    rewrite Hs, replace_first_leading. eexists. reflexivity.
  - intros d2 Hd Hi. unfold failure_message. cbv zeta. rewrite Hi, Hd.
    match goal with |- exists pre, ?F ++ JsString.LF ++ ?B ++ JsString.LF ++ " " ++ _ = _ =>
      exists (F ++ JsString.LF ++ B) end.
    rewrite !string_app_assoc. reflexivity.
Qed.

(** ** Repeated attempts under retries *)


Section Retries.
Variables (L : Libs) (E : Engine) (fsm : FsModule) (G : Globals) (lvl : Z) (prompts : Prompts).
Variables (common call : Given) (ctx : TestContext) (received : string).
Variables (se : Files -> string -> bool) (r : ComparisonResult) (id : string) (R : Z).
Hypothesis Hfs : fs_syncExists fsm = Some se.
Hypothesis Hno_received : forall fs p, se fs p = false.
Hypothesis Hengine : forall a fs, diffImageToSnapshot E a fs = (r, fs) /\ runDiffImageToSnapshot E a fs = (r, fs).
Hypothesis Hfailing : res_updated r = false /\ res_added r = false /\ res_pass r = false.
Hypothesis Hcustom : customSnapshotIdentifier (resolved_options common call) = Some (CIString id).
Hypothesis Hid : String.eqb id "" = false.
Hypothesis Hretries : retryTimes_of G = R.
Hypothesis HR : (0 < R)%Z.
Hypothesis Hnot : isNot ctx = false.


End Retries.


